(** * inputtino: the uinput PS5 joypad (src/uinput/joypad_ps.cpp)

    A shallow embedding of [PS5Joypad] and of the calls it makes on
    libevdev/uinput and on [std::thread], with the properties of the
    controller emulation layer proved on it.

    - machine integers are [Z]; an [unsigned int] holds a value of
      [0 .. 2^32 - 1], a [short]/[int16_t] one of [-32768 .. 32767];
    - the object behind [std::shared_ptr<PS5JoypadState>] lives in a
      heap ([gmap loc PS5JoypadState]) so that the session and the
      listener thread started by [create] alias the same state;
    - every member function is a computation in the monad [M]: it reads
      and updates the [World] (heap, started threads, events written to
      uinput) or faults (a null pointer dereference, [std::terminate]). *)

From Stdlib Require Import ZArith List Bool Lia String.
From stdpp Require Import base option gmap.
Import ListNotations.

Local Open Scope Z_scope.

(** ** linux/input.h *)

Inductive ev_type : Set := EV_SYN | EV_KEY | EV_ABS | EV_FF.

Inductive ev_code : Set :=
| SYN_REPORT
| BTN_SOUTH | BTN_EAST | BTN_NORTH | BTN_WEST
| BTN_TL | BTN_TR | BTN_TL2 | BTN_TR2
| BTN_SELECT | BTN_START | BTN_MODE | BTN_THUMBL | BTN_THUMBR
| ABS_X | ABS_Y | ABS_Z | ABS_RX | ABS_RY | ABS_RZ | ABS_HAT0X | ABS_HAT0Y
| FF_RUMBLE | FF_PERIODIC | FF_CONSTANT | FF_RAMP | FF_SINE | FF_GAIN.

#[global] Instance ev_type_eq_dec : EqDecision ev_type.
Proof. solve_decision. Defined.

#[global] Instance ev_code_eq_dec : EqDecision ev_code.
Proof. solve_decision. Defined.

Definition BUS_USB : Z := 0x03.

(** [struct input_absinfo], fields in the order of the kernel header: an
    aggregate initialiser [{a, b, c, d, e, f}] fills them in this order. *)
Record input_absinfo : Set := mk_absinfo {
  value : Z;
  minimum : Z;
  maximum : Z;
  fuzz : Z;
  flat : Z;
  resolution : Z
}.

(** ** Handles and results *)

(** A registered uinput device ([libevdev_uinput *]); a pointer to one
    is [option libevdev_uinput], [None] being [nullptr]. *)
Definition libevdev_uinput : Set := nat.

(** Addresses of [PS5JoypadState] objects. *)
Definition loc : Set := positive.

(** Identifiers of started threads: the position in [threads]. *)
Definition thread_id : Set := nat.

(** [inputtino::Result<T>]: a value or an error message. *)
Inductive Result (T : Type) : Type :=
| Ok (v : T)
| Error (msg : string).
Arguments Ok {T} v.
Arguments Error {T} msg.

(** C's conversion of an integer to a condition. *)
Definition truthy (z : Z) : bool := negb (z =? 0).

(** ** Joypad: the names shared by all the controller profiles *)

Module Joypad.

(** [enum CONTROLLER_BTN]. The enumerators' numeric values are given
    in inputtino/input.hpp, which is not among the sources at hand: the
    development is parametric in them. *)
Class CONTROLLER_BTN : Set := {
  DPAD_UP : Z;
  DPAD_DOWN : Z;
  DPAD_LEFT : Z;
  DPAD_RIGHT : Z;
  START : Z;
  BACK : Z;
  HOME : Z;
  LEFT_STICK : Z;
  RIGHT_STICK : Z;
  LEFT_BUTTON : Z;
  RIGHT_BUTTON : Z;
  A : Z;
  B : Z;
  X : Z;
  Y : Z
}.

(** [enum STICK_POSITION]. *)
Inductive STICK_POSITION : Set := RS | LS.

#[global] Instance STICK_POSITION_eq_dec : EqDecision STICK_POSITION.
Proof. solve_decision. Defined.

End Joypad.

(** A sample assignment of the button flags, one bit each (the layout of
    the Moonlight protocol), for running the model on concrete masks. *)
Definition moonlight_btn : Joypad.CONTROLLER_BTN := {|
  Joypad.DPAD_UP := 0x0001;
  Joypad.DPAD_DOWN := 0x0002;
  Joypad.DPAD_LEFT := 0x0004;
  Joypad.DPAD_RIGHT := 0x0008;
  Joypad.START := 0x0010;
  Joypad.BACK := 0x0020;
  Joypad.HOME := 0x0400;
  Joypad.LEFT_STICK := 0x0040;
  Joypad.RIGHT_STICK := 0x0080;
  Joypad.LEFT_BUTTON := 0x0100;
  Joypad.RIGHT_BUTTON := 0x0200;
  Joypad.A := 0x1000;
  Joypad.B := 0x2000;
  Joypad.X := 0x4000;
  Joypad.Y := 0x8000
|}.

(** [struct DeviceDefinition], the fields the uinput backend reads. *)
Record DeviceDefinition : Set := {
  name : string;
  vendor_id : Z;
  product_id : Z;
  version : Z
}.

(** ** libevdev: the device under construction *)

(** The part of [struct libevdev] that [create_ps_controller] fills in:
    identity, enabled event types and codes, calibration of the absolute
    axes (the entry nearest the head is the current one). *)
Record libevdev : Set := mk_libevdev {
  dev_name : string;
  id_vendor : Z;
  id_product : Z;
  id_version : Z;
  id_bustype : Z;
  ev_types : list ev_type;
  ev_codes : list (ev_type * ev_code);
  abs_info : list (ev_code * input_absinfo)
}.

Definition libevdev_new : libevdev := mk_libevdev EmptyString 0 0 0 0 [] [] [].

Definition libevdev_set_name (dev : libevdev) (n : string) : libevdev :=
  let '(mk_libevdev _ vendor product ver bus types codes abs) := dev in
  mk_libevdev n vendor product ver bus types codes abs.
Definition libevdev_set_id_vendor (dev : libevdev) (v : Z) : libevdev :=
  let '(mk_libevdev n _ product ver bus types codes abs) := dev in
  mk_libevdev n v product ver bus types codes abs.
Definition libevdev_set_id_product (dev : libevdev) (v : Z) : libevdev :=
  let '(mk_libevdev n vendor _ ver bus types codes abs) := dev in
  mk_libevdev n vendor v ver bus types codes abs.
Definition libevdev_set_id_version (dev : libevdev) (v : Z) : libevdev :=
  let '(mk_libevdev n vendor product _ bus types codes abs) := dev in
  mk_libevdev n vendor product v bus types codes abs.
Definition libevdev_set_id_bustype (dev : libevdev) (v : Z) : libevdev :=
  let '(mk_libevdev n vendor product ver _ types codes abs) := dev in
  mk_libevdev n vendor product ver v types codes abs.

Definition libevdev_enable_event_type (dev : libevdev) (type : ev_type) : libevdev :=
  let '(mk_libevdev n vendor product ver bus types codes abs) := dev in
  if decide (type ∈ types) then dev
  else mk_libevdev n vendor product ver bus (types ++ [type]) codes abs.

Definition set_code_bit (dev : libevdev) (type : ev_type) (code : ev_code) : libevdev :=
  let '(mk_libevdev n vendor product ver bus types codes abs) := dev in
  if decide ((type, code) ∈ codes) then dev
  else mk_libevdev n vendor product ver bus types (codes ++ [(type, code)]) abs.

Definition set_abs_info (dev : libevdev) (code : ev_code) (a : input_absinfo) : libevdev :=
  let '(mk_libevdev n vendor product ver bus types codes abs) := dev in
  mk_libevdev n vendor product ver bus types codes ((code, a) :: abs).

(** [libevdev_enable_event_code(dev, type, code, data)]: the type is
    enabled first; an [EV_ABS] code needs its [input_absinfo] and any
    other code must come without data, otherwise the call is refused. *)
Definition libevdev_enable_event_code (dev : libevdev) (type : ev_type)
    (code : ev_code) (data : option input_absinfo) : libevdev :=
  let dev := libevdev_enable_event_type dev type in
  match type, data with
  | EV_SYN, _ => dev
  | EV_ABS, Some abs => set_abs_info (set_code_bit dev type code) code abs
  | EV_ABS, None => dev
  | _, None => set_code_bit dev type code
  | _, Some _ => dev
  end.

(** [libevdev_get_abs_info]. *)
Fixpoint assoc_abs (code : ev_code) (l : list (ev_code * input_absinfo))
    : option input_absinfo :=
  match l with
  | [] => None
  | (c, a) :: l' => if decide (c = code) then Some a else assoc_abs code l'
  end.

Definition libevdev_get_abs_info (dev : libevdev) (code : ev_code)
    : option input_absinfo :=
  assoc_abs code (abs_info dev).

Definition libevdev_has_event_code (dev : libevdev) (type : ev_type)
    (code : ev_code) : bool :=
  bool_decide ((type, code) ∈ ev_codes dev).

(** The capability descriptor: what [create_ps_controller] builds before
    it hands the device to uinput. *)
Definition ps_controller_dev (device : DeviceDefinition) : libevdev :=
  let dev := libevdev_new in
  let dev := libevdev_set_name dev (name device) in
  let dev := libevdev_set_id_vendor dev (vendor_id device) in
  let dev := libevdev_set_id_product dev (product_id device) in
  let dev := libevdev_set_id_version dev (version device) in
  let dev := libevdev_set_id_bustype dev BUS_USB in

  let dev := libevdev_enable_event_type dev EV_KEY in
  let dev := libevdev_enable_event_code dev EV_KEY BTN_WEST None in
  let dev := libevdev_enable_event_code dev EV_KEY BTN_EAST None in
  let dev := libevdev_enable_event_code dev EV_KEY BTN_NORTH None in
  let dev := libevdev_enable_event_code dev EV_KEY BTN_SOUTH None in
  let dev := libevdev_enable_event_code dev EV_KEY BTN_THUMBL None in
  let dev := libevdev_enable_event_code dev EV_KEY BTN_THUMBR None in
  let dev := libevdev_enable_event_code dev EV_KEY BTN_TR None in
  let dev := libevdev_enable_event_code dev EV_KEY BTN_TL None in
  let dev := libevdev_enable_event_code dev EV_KEY BTN_TR2 None in
  let dev := libevdev_enable_event_code dev EV_KEY BTN_TL2 None in
  let dev := libevdev_enable_event_code dev EV_KEY BTN_SELECT None in
  let dev := libevdev_enable_event_code dev EV_KEY BTN_MODE None in
  let dev := libevdev_enable_event_code dev EV_KEY BTN_START None in

  let dev := libevdev_enable_event_type dev EV_ABS in

  let dpad := mk_absinfo 0 (-1) 1 0 0 0 in
  let dev := libevdev_enable_event_code dev EV_ABS ABS_HAT0Y (Some dpad) in
  let dev := libevdev_enable_event_code dev EV_ABS ABS_HAT0X (Some dpad) in

  let stick := mk_absinfo 0 (-32768) 32767 16 128 0 in
  let dev := libevdev_enable_event_code dev EV_ABS ABS_X (Some stick) in
  let dev := libevdev_enable_event_code dev EV_ABS ABS_RX (Some stick) in
  let dev := libevdev_enable_event_code dev EV_ABS ABS_Y (Some stick) in
  let dev := libevdev_enable_event_code dev EV_ABS ABS_RY (Some stick) in

  let trigger := mk_absinfo 0 0 255 0 0 0 in
  let dev := libevdev_enable_event_code dev EV_ABS ABS_Z (Some trigger) in
  let dev := libevdev_enable_event_code dev EV_ABS ABS_RZ (Some trigger) in

  let dev := libevdev_enable_event_type dev EV_FF in
  let dev := libevdev_enable_event_code dev EV_FF FF_RUMBLE None in
  let dev := libevdev_enable_event_code dev EV_FF FF_CONSTANT None in
  let dev := libevdev_enable_event_code dev EV_FF FF_PERIODIC None in
  let dev := libevdev_enable_event_code dev EV_FF FF_SINE None in
  let dev := libevdev_enable_event_code dev EV_FF FF_RAMP None in
  let dev := libevdev_enable_event_code dev EV_FF FF_GAIN None in
  dev.

(** ** The world a session runs in *)

(** The rumble callback is a closure of the caller; the model keeps
    which one is registered. *)
Definition rumble_callback : Set := nat.

(** A [std::thread] object: the thread it is attached to, if any. *)
Definition std_thread : Set := option thread_id.

(** Modelled from the spec: [struct PS5JoypadState] is declared in
    inputtino/protected_ps5_types.hpp, which is not among the sources; the
    fields are those [joypad_ps.cpp] uses, the mask is kept at the type
    of [newly_pressed], and the initial values are the spec's "empty
    previous state", no handle, no callback, listener not stopped. *)
Record PS5JoypadState : Set := mkState {
  joy : option libevdev_uinput;
  currently_pressed_btns : Z;
  stop_listening_events : bool;
  events_thread : std_thread;
  on_rumble : option rumble_callback
}.

Definition default_state : PS5JoypadState := {|
  joy := None;
  currently_pressed_btns := 0;
  stop_listening_events := false;
  events_thread := None;
  on_rumble := None
|}.

Definition set_joy (v : option libevdev_uinput) (st : PS5JoypadState) :=
  mkState v (currently_pressed_btns st) (stop_listening_events st)
          (events_thread st) (on_rumble st).
Definition set_currently_pressed_btns (v : Z) (st : PS5JoypadState) :=
  mkState (joy st) v (stop_listening_events st) (events_thread st) (on_rumble st).
Definition set_stop_listening_events (v : bool) (st : PS5JoypadState) :=
  mkState (joy st) (currently_pressed_btns st) v (events_thread st) (on_rumble st).
Definition set_events_thread (v : std_thread) (st : PS5JoypadState) :=
  mkState (joy st) (currently_pressed_btns st) (stop_listening_events st)
          v (on_rumble st).
Definition set_on_rumble_field (v : option rumble_callback) (st : PS5JoypadState) :=
  mkState (joy st) (currently_pressed_btns st) (stop_listening_events st)
          (events_thread st) v.

(** One call of [libevdev_uinput_write_event]. *)
Record uinput_write : Set := mk_write {
  w_dev : libevdev_uinput;
  w_type : ev_type;
  w_code : ev_code;
  w_value : Z
}.

#[global] Instance uinput_write_eq_dec : EqDecision uinput_write.
Proof. solve_decision. Defined.

(** The functions a thread is started on. *)
Inductive thread_entry : Set := event_listener.

(** A started thread: its entry point, the state it was handed (a copy
    of the shared pointer), whether it was detached and whether a [join]
    on it has returned, which it does once the thread has exited. *)
Record thread_info : Set := mk_thread {
  entry : thread_entry;
  arg : option loc;
  detached : bool;
  joined : bool
}.

Record World : Type := mkWorld {
  heap : gmap loc PS5JoypadState;
  threads : list thread_info;
  written : list uinput_write
}.

Definition set_heap (f : gmap loc PS5JoypadState -> gmap loc PS5JoypadState)
    (w : World) : World :=
  mkWorld (f (heap w)) (threads w) (written w).
Definition set_threads (f : list thread_info -> list thread_info)
    (w : World) : World :=
  mkWorld (heap w) (f (threads w)) (written w).
Definition set_written (f : list uinput_write -> list uinput_write)
    (w : World) : World :=
  mkWorld (heap w) (threads w) (f (written w)).

(** ** The monad of member functions *)

(** A computation runs from a world to a result and a new world; [None]
    is a fault. *)
Definition M (T : Type) : Type := World -> option (T * World).

#[global] Instance M_ret : MRet M := fun _ v w => Some (v, w).
#[global] Instance M_bind : MBind M := fun _ _ f m w =>
  match m w with
  | Some (v, w') => f v w'
  | None => None
  end.

Definition fault {T} : M T := fun _ => None.
Definition get_world : M World := fun w => Some (w, w).
Definition modify_world (f : World -> World) : M unit := fun w => Some (tt, f w).

(** [if (c) body] with no else branch. *)
Definition when (c : bool) (body : M unit) : M unit :=
  if c then body else mret tt.

(** [p->field]: read through a shared pointer. *)
Definition deref (p : option loc) : M PS5JoypadState := fun w =>
  match p with
  | None => None
  | Some l => match heap w !! l with
              | Some st => Some (st, w)
              | None => None
              end
  end.

(** [p->field = v]: write through a shared pointer. *)
Definition assign (p : option loc) (f : PS5JoypadState -> PS5JoypadState) : M unit :=
  st ← deref p;
  match p with
  | None => fault
  | Some l => modify_world (set_heap <[l := f st]>)
  end.

(** [std::make_shared<PS5JoypadState>()]. *)
Definition make_shared : M loc := fun w =>
  let l := fresh (dom (heap w)) in
  Some (l, set_heap <[l := default_state]> w).

(** [libevdev_uinput_write_event]: libevdev dereferences the handle. *)
Definition libevdev_uinput_write_event (uinput_dev : option libevdev_uinput)
    (type : ev_type) (code : ev_code) (v : Z) : M unit :=
  match uinput_dev with
  | None => fault
  | Some h => modify_world (set_written (fun evs => evs ++ [mk_write h type code v]))
  end.

(** A pointer used as a condition. *)
Definition nonnull {T} (p : option T) : bool :=
  match p with Some _ => true | None => false end.

(** ** PS5Joypad *)

Record PS5Joypad : Set := { _state : option loc }.

Section Commands.

Context {btn : Joypad.CONTROLLER_BTN}.
Import Joypad.

Definition set_stick (this : PS5Joypad) (stick_type : STICK_POSITION)
    (x y : Z) : M unit :=
  st ← deref (_state this);
  let controller := joy st in
  when (nonnull controller) (
    (if decide (stick_type = LS) then
       libevdev_uinput_write_event controller EV_ABS ABS_X x;;
       libevdev_uinput_write_event controller EV_ABS ABS_Y (- y)
     else
       libevdev_uinput_write_event controller EV_ABS ABS_RX x;;
       libevdev_uinput_write_event controller EV_ABS ABS_RY (- y));;
    libevdev_uinput_write_event controller EV_SYN SYN_REPORT 0).

Definition set_triggers (this : PS5Joypad) (left right : Z) : M unit :=
  st ← deref (_state this);
  let controller := joy st in
  when (nonnull controller) (
    (if 0 <? left then
       libevdev_uinput_write_event controller EV_ABS ABS_Z left
     else
       libevdev_uinput_write_event controller EV_ABS ABS_Z left);;
    (if 0 <? right then
       libevdev_uinput_write_event controller EV_ABS ABS_RZ right
     else
       libevdev_uinput_write_event controller EV_ABS ABS_RZ right);;
    libevdev_uinput_write_event controller EV_SYN SYN_REPORT 0).

Definition set_pressed_buttons (this : PS5Joypad) (newly_pressed : Z) : M unit :=
  st ← deref (_state this);
  (* Button flags that have been changed between current and prev *)
  let bf_changed := Z.lxor newly_pressed (currently_pressed_btns st) in
  (* Button flags that are only part of the new packet *)
  let bf_new := newly_pressed in
  st ← deref (_state this);
  let controller := joy st in
  when (nonnull controller) (
    when (truthy bf_changed) (
      when (truthy (Z.land (Z.lor DPAD_UP DPAD_DOWN) bf_changed)) (
        let button_state :=
          if truthy (Z.land bf_new DPAD_UP) then -1
          else if truthy (Z.land bf_new DPAD_DOWN) then 1 else 0 in
        libevdev_uinput_write_event controller EV_ABS ABS_HAT0Y button_state);;
      when (truthy (Z.land (Z.lor DPAD_LEFT DPAD_RIGHT) bf_changed)) (
        let button_state :=
          if truthy (Z.land bf_new DPAD_LEFT) then -1
          else if truthy (Z.land bf_new DPAD_RIGHT) then 1 else 0 in
        libevdev_uinput_write_event controller EV_ABS ABS_HAT0X button_state);;
      when (truthy (Z.land START bf_changed))
        (libevdev_uinput_write_event controller EV_KEY BTN_START
           (if truthy (Z.land bf_new START) then 1 else 0));;
      when (truthy (Z.land BACK bf_changed))
        (libevdev_uinput_write_event controller EV_KEY BTN_SELECT
           (if truthy (Z.land bf_new BACK) then 1 else 0));;
      when (truthy (Z.land LEFT_STICK bf_changed))
        (libevdev_uinput_write_event controller EV_KEY BTN_THUMBL
           (if truthy (Z.land bf_new LEFT_STICK) then 1 else 0));;
      when (truthy (Z.land RIGHT_STICK bf_changed))
        (libevdev_uinput_write_event controller EV_KEY BTN_THUMBR
           (if truthy (Z.land bf_new RIGHT_STICK) then 1 else 0));;
      when (truthy (Z.land LEFT_BUTTON bf_changed))
        (libevdev_uinput_write_event controller EV_KEY BTN_TL
           (if truthy (Z.land bf_new LEFT_BUTTON) then 1 else 0));;
      when (truthy (Z.land RIGHT_BUTTON bf_changed))
        (libevdev_uinput_write_event controller EV_KEY BTN_TR
           (if truthy (Z.land bf_new RIGHT_BUTTON) then 1 else 0));;
      when (truthy (Z.land HOME bf_changed))
        (libevdev_uinput_write_event controller EV_KEY BTN_MODE
           (if truthy (Z.land bf_new HOME) then 1 else 0));;
      when (truthy (Z.land A bf_changed))
        (libevdev_uinput_write_event controller EV_KEY BTN_SOUTH
           (if truthy (Z.land bf_new A) then 1 else 0));;
      when (truthy (Z.land B bf_changed))
        (libevdev_uinput_write_event controller EV_KEY BTN_EAST
           (if truthy (Z.land bf_new B) then 1 else 0));;
      when (truthy (Z.land X bf_changed))
        (libevdev_uinput_write_event controller EV_KEY BTN_WEST
           (if truthy (Z.land bf_new X) then 1 else 0));;
      when (truthy (Z.land Y bf_changed))
        (libevdev_uinput_write_event controller EV_KEY BTN_NORTH
           (if truthy (Z.land bf_new Y) then 1 else 0)));;
    libevdev_uinput_write_event controller EV_SYN SYN_REPORT 0);;
  assign (_state this) (set_currently_pressed_btns bf_new).

Definition set_on_rumble (this : PS5Joypad) (callback : rumble_callback) : M unit :=
  assign (_state this) (set_on_rumble_field (Some callback)).

End Commands.

(** ** std::thread *)

Definition joinable (t : std_thread) : bool := nonnull t.

Definition mark_detached (t : thread_info) : thread_info :=
  mk_thread (entry t) (arg t) true (joined t).
Definition mark_joined (t : thread_info) : thread_info :=
  mk_thread (entry t) (arg t) (detached t) true.

(** [std::thread(f, a)]: a new thread runs [f] on its copy of [a]. *)
Definition thread_start (f : thread_entry) (a : option loc) : M std_thread :=
  fun w =>
    Some (Some (length (threads w)),
          set_threads (fun ts => ts ++ [mk_thread f a false false]) w).

(** [p->events_thread = std::move(t)]: assigning to a joinable thread
    object calls [std::terminate]. *)
Definition thread_move_assign (p : option loc) (t : std_thread) : M unit :=
  st ← deref p;
  if joinable (events_thread st) then fault
  else assign p (set_events_thread t).

(** [p->events_thread.detach()]: the thread runs on by itself and the
    object no longer refers to it; an error when it refers to none. *)
Definition thread_detach (p : option loc) : M unit :=
  st ← deref p;
  match events_thread st with
  | None => fault
  | Some tid =>
      modify_world (set_threads (alter mark_detached tid));;
      assign p (set_events_thread None)
  end.

(** [p->events_thread.join()]: returns once the thread has exited. *)
Definition thread_join (p : option loc) : M unit :=
  st ← deref p;
  match events_thread st with
  | None => fault
  | Some tid =>
      modify_world (set_threads (alter mark_joined tid));;
      assign p (set_events_thread None)
  end.

(** ** Construction, destruction, creation *)

Definition PS5Joypad_ctor (vendor_id : Z) (mac_address : list Z) : M PS5Joypad :=
  l ← make_shared;
  mret {| _state := Some l |}.

Definition PS5Joypad_dtor (this : PS5Joypad) : M unit :=
  when (nonnull (_state this)) (
    assign (_state this) (set_stop_listening_events true);;
    st ← deref (_state this);
    when (nonnull (joy st) && joinable (events_thread st)) (
      thread_join (_state this))).

Section Create.

(** The kernel's answer to a registration: the error code (0 on
    success, a negated errno otherwise) and the handle. *)
Variable uinput_create : libevdev -> World -> Z * libevdev_uinput.
Variable strerror : Z -> string.
(** The default of the constructor's [mac_address] argument. *)
Variable default_mac_address : list Z.

Definition libevdev_uinput_create_from_device (dev : libevdev)
    : M (Z * libevdev_uinput) :=
  fun w => Some (uinput_create dev w, w).

Definition create_ps_controller (device : DeviceDefinition)
    : M (Result libevdev_uinput) :=
  let dev := ps_controller_dev device in
  r ← libevdev_uinput_create_from_device dev;
  let err := fst r in
  let uidev := snd r in
  if truthy err then mret (Error (strerror (- err)))
  else mret (Ok uidev).

(** The local [joypad] is moved into the result, which leaves it with a
    null [_state]; its destructor then runs on that (were the state still
    reachable from the local, the stop flag would be raised here and the
    listener the tests talk to would never serve a rumble). *)
Definition create (device : DeviceDefinition) : M (Result PS5Joypad) :=
  joy_el ← create_ps_controller device;
  match joy_el with
  | Error msg => mret (Error msg)
  | Ok uidev =>
      joypad ← PS5Joypad_ctor 0 default_mac_address;
      assign (_state joypad) (set_joy (Some uidev));;
      event_thread ← thread_start event_listener (_state joypad);
      thread_move_assign (_state joypad) event_thread;;
      thread_detach (_state joypad);;
      PS5Joypad_dtor {| _state := None |};;
      mret (Ok joypad)
  end.

End Create.

(** ** Callers *)

Inductive command : Set :=
| SetPressedButtons (newly_pressed : Z)
| SetStick (stick_type : Joypad.STICK_POSITION) (x y : Z)
| SetTriggers (left right : Z)
| SetOnRumble (callback : rumble_callback).

Section Callers.

Context {btn : Joypad.CONTROLLER_BTN}.

Definition run_command (this : PS5Joypad) (c : command) : M unit :=
  match c with
  | SetPressedButtons m => set_pressed_buttons this m
  | SetStick s x y => set_stick this s x y
  | SetTriggers l r => set_triggers this l r
  | SetOnRumble cb => set_on_rumble this cb
  end.

Fixpoint run_commands (this : PS5Joypad) (cs : list command) : M unit :=
  match cs with
  | [] => mret tt
  | c :: cs' => run_command this c;; run_commands this cs'
  end.

(** A sequence of button-mask updates. *)
Fixpoint press_all (this : PS5Joypad) (masks : list Z) : M unit :=
  match masks with
  | [] => mret tt
  | m :: masks' => set_pressed_buttons this m;; press_all this masks'
  end.

End Callers.

(** ** The state encoder, as the specification words it *)

Definition syn_report (h : libevdev_uinput) : uinput_write :=
  mk_write h EV_SYN SYN_REPORT 0.

(** The events of a stick update. *)
Definition stick_events (h : libevdev_uinput)
    (stick_type : Joypad.STICK_POSITION) (x y : Z) : list uinput_write :=
  match stick_type with
  | Joypad.LS => [mk_write h EV_ABS ABS_X x; mk_write h EV_ABS ABS_Y (- y)]
  | Joypad.RS => [mk_write h EV_ABS ABS_RX x; mk_write h EV_ABS ABS_RY (- y)]
  end ++ [syn_report h].

(** The events of a trigger update: both pressures as they are. *)
Definition trigger_events (h : libevdev_uinput) (left right : Z)
    : list uinput_write :=
  [mk_write h EV_ABS ABS_Z left; mk_write h EV_ABS ABS_RZ right; syn_report h].

(** The branch-free trigger update: the left pressure on the left
    trigger axis, the right one on the right trigger axis, with no
    comparison with zero. *)
Definition set_triggers_branch_free (this : PS5Joypad) (left right : Z) : M unit :=
  st ← deref (_state this);
  let controller := joy st in
  when (nonnull controller) (
    libevdev_uinput_write_event controller EV_ABS ABS_Z left;;
    libevdev_uinput_write_event controller EV_ABS ABS_RZ right;;
    libevdev_uinput_write_event controller EV_SYN SYN_REPORT 0).

Definition is_int16 (z : Z) : Prop := -32768 <= z <= 32767.

Section Encoder.

Context {btn : Joypad.CONTROLLER_BTN}.
Import Joypad.

(** Button flag and the key code it maps to, one to one. *)
Definition key_table : list (Z * ev_code) :=
  [ (START, BTN_START); (BACK, BTN_SELECT);
    (LEFT_STICK, BTN_THUMBL); (RIGHT_STICK, BTN_THUMBR);
    (LEFT_BUTTON, BTN_TL); (RIGHT_BUTTON, BTN_TR);
    (HOME, BTN_MODE);
    (A, BTN_SOUTH); (B, BTN_EAST); (X, BTN_WEST); (Y, BTN_NORTH) ].

(** The two bipolar axes of the directional pad: the flag of the
    negative direction, the flag of the positive one, the axis. *)
Definition hat_table : list (Z * Z * ev_code) :=
  [ (DPAD_UP, DPAD_DOWN, ABS_HAT0Y); (DPAD_LEFT, DPAD_RIGHT, ABS_HAT0X) ].

(** Whether a flag is among the bits that differ between two masks. *)
Definition changed (flag old new : Z) : bool :=
  truthy (Z.land flag (Z.lxor new old)).

(** 1 when pressed, 0 when released. *)
Definition key_value (flag new : Z) : Z :=
  if truthy (Z.land new flag) then 1 else 0.

(** -1 for up/left, else +1 for down/right, else neutral. *)
Definition hat_value (neg pos new : Z) : Z :=
  if truthy (Z.land new neg) then -1
  else if truthy (Z.land new pos) then 1 else 0.

Definition key_edge (h : libevdev_uinput) (old new : Z) (e : Z * ev_code)
    : list uinput_write :=
  if changed (fst e) old new
  then [mk_write h EV_KEY (snd e) (key_value (fst e) new)] else [].

Definition hat_edge (h : libevdev_uinput) (old new : Z) (e : Z * Z * ev_code)
    : list uinput_write :=
  if changed (Z.lor (fst (fst e)) (snd (fst e))) old new
  then [mk_write h EV_ABS (snd e) (hat_value (fst (fst e)) (snd (fst e)) new)]
  else [].

(** Edge-triggered emission: the events of the flags that changed. *)
Definition edge_events (h : libevdev_uinput) (old new : Z) : list uinput_write :=
  flat_map (hat_edge h old new) hat_table ++ flat_map (key_edge h old new) key_table.

(** What one mask update writes: the edge events, then one report. *)
Definition frame (h : libevdev_uinput) (old new : Z) : list uinput_write :=
  edge_events h old new ++ [syn_report h].

(** What a sequence of mask updates writes, from the stored mask [prev]. *)
Fixpoint frames (h : libevdev_uinput) (prev : Z) (masks : list Z)
    : list uinput_write :=
  match masks with
  | [] => []
  | m :: masks' => frame h prev m ++ frames h m masks'
  end.

End Encoder.

(** A session whose [_state] points at [l]. *)
Definition session (l : loc) : PS5Joypad := {| _state := Some l |}.

(** Samples for running the model. *)
Definition sample_state (h : libevdev_uinput) : PS5JoypadState :=
  set_joy (Some h) default_state.
Definition sample_world (st : PS5JoypadState) : World :=
  mkWorld {[ 1%positive := st ]} [] [].
Definition sample_device : DeviceDefinition :=
  {| name := "pad"; vendor_id := 0x054C; product_id := 0x0CE6; version := 0x8111 |}.
Definition kernel_accepts (h : libevdev_uinput)
    : libevdev -> World -> Z * libevdev_uinput :=
  fun _ _ => (0, h).
Definition kernel_refuses (errno : Z)
    : libevdev -> World -> Z * libevdev_uinput :=
  fun _ _ => (- errno, 0%nat).
Definition sample_strerror (errno : Z) : string :=
  if errno =? 13 then "Permission denied" else "Unknown error".

(** ** The rest of the member functions *)

Section Nodes.

(** [get_child_dev_nodes] comes from joypad_utils.hpp, which is not among
    the sources: the device nodes of a handle are a parameter. *)
Variable get_child_dev_nodes : libevdev_uinput -> list string.

Definition get_nodes (this : PS5Joypad) : M (list string) :=
  let nodes := [] in
  st ← deref (_state this);
  match joy st with
  | Some joy =>
      let additional_nodes := get_child_dev_nodes joy in
      mret (nodes ++ additional_nodes)
  | None => mret nodes
  end.

End Nodes.

Section Unsupported.

(** The arguments of these are never looked at; the types that the
    model has no use for ([float], the enumerations, the callbacks) are
    left open. *)
Variables float MOTION_TYPE BATTERY_STATE led_callback trigger_effect_callback : Type.

(* Followings aren't supported when not using the UHID implementation *)
Definition place_finger (this : PS5Joypad) (finger_nr x y : Z) : M unit :=
  mret tt.
Definition release_finger (this : PS5Joypad) (finger_nr : Z) : M unit :=
  mret tt.
Definition set_motion (this : PS5Joypad) (type : MOTION_TYPE) (x y z : float)
    : M unit :=
  mret tt.
Definition set_battery (this : PS5Joypad) (state : BATTERY_STATE)
    (percentage : Z) : M unit :=
  mret tt.
Definition set_on_led (this : PS5Joypad) (callback : led_callback) : M unit :=
  mret tt.
Definition set_on_trigger_effect (this : PS5Joypad)
    (callback : trigger_effect_callback) : M unit :=
  mret tt.

(** A call on the controller interface: a command of the uinput backend
    or one of the operations it does not support. *)
Inductive call : Type :=
| Supported (c : command)
| PlaceFinger (finger_nr x y : Z)
| ReleaseFinger (finger_nr : Z)
| SetMotion (type : MOTION_TYPE) (x y z : float)
| SetBattery (state : BATTERY_STATE) (percentage : Z)
| SetOnLed (callback : led_callback)
| SetOnTriggerEffect (callback : trigger_effect_callback).

Definition supported (c : call) : list command :=
  match c with
  | Supported c => [c]
  | _ => []
  end.

Context {btn : Joypad.CONTROLLER_BTN}.

Definition run_call (this : PS5Joypad) (c : call) : M unit :=
  match c with
  | Supported c => run_command this c
  | PlaceFinger finger_nr x y => place_finger this finger_nr x y
  | ReleaseFinger finger_nr => release_finger this finger_nr
  | SetMotion type x y z => set_motion this type x y z
  | SetBattery state percentage => set_battery this state percentage
  | SetOnLed callback => set_on_led this callback
  | SetOnTriggerEffect callback => set_on_trigger_effect this callback
  end.

Fixpoint run_calls (this : PS5Joypad) (cs : list call) : M unit :=
  match cs with
  | [] => mret tt
  | c :: cs' => run_call this c;; run_calls this cs'
  end.

End Unsupported.

(** ** Commands as the trace and the state see them *)

Section CommandEffects.

Context {btn : Joypad.CONTROLLER_BTN}.

(** The events a command writes on a live handle [h], the stored mask
    being [prev]. *)
Definition command_events (h : libevdev_uinput) (prev : Z) (c : command)
    : list uinput_write :=
  match c with
  | SetPressedButtons m => frame h prev m
  | SetStick s x y => stick_events h s x y
  | SetTriggers l r => trigger_events h l r
  | SetOnRumble _ => []
  end.

(** The state a command leaves. *)
Definition command_state (c : command) (st : PS5JoypadState) : PS5JoypadState :=
  match c with
  | SetPressedButtons m => set_currently_pressed_btns m st
  | SetOnRumble cb => set_on_rumble_field (Some cb) st
  | _ => st
  end.

(** The stored mask a command leaves. *)
Definition next_mask (prev : Z) (c : command) : Z :=
  match c with
  | SetPressedButtons m => m
  | _ => prev
  end.

Fixpoint commands_events (h : libevdev_uinput) (prev : Z) (cs : list command)
    : list uinput_write :=
  match cs with
  | [] => []
  | c :: cs' =>
      command_events h prev c ++ commands_events h (next_mask prev c) cs'
  end.

Definition commands_state (cs : list command) (st : PS5JoypadState)
    : PS5JoypadState :=
  fold_left (fun st c => command_state c st) cs st.

End CommandEffects.

(** ** Reading the trace back *)

(** Whether a write is on the device, type and code given. *)
Definition hits (h : libevdev_uinput) (type : ev_type) (code : ev_code)
    (ev : uinput_write) : bool :=
  bool_decide (w_type ev = type) && bool_decide (w_code ev = code)
  && bool_decide (w_dev ev = h).

(** The value last written on a code after the writes [evs], [v] being
    the one before them. *)
Definition settle (h : libevdev_uinput) (type : ev_type) (code : ev_code)
    (v : Z) (evs : list uinput_write) : Z :=
  fold_left (fun v ev => if hits h type code ev then w_value ev else v) evs v.

(** The value last written on a code, 0 when it was never written. *)
Definition last_value (h : libevdev_uinput) (type : ev_type) (code : ev_code)
    (evs : list uinput_write) : Z :=
  settle h type code 0 evs.

(** The writes on one device. *)
Definition on_device (h : libevdev_uinput) (evs : list uinput_write)
    : list uinput_write :=
  List.filter (fun ev => bool_decide (w_dev ev = h)) evs.

(** No frame is left open on the device: its last write, if any, is a
    SYN_REPORT. *)
Definition frames_closed (h : libevdev_uinput) (evs : list uinput_write) : bool :=
  match rev (on_device h evs) with
  | [] => true
  | ev :: _ => bool_decide (ev = syn_report h)
  end.

(** Whether a written value lies in the range the descriptor declares
    for it: the calibrated range of an axis, 0 or 1 for a key. *)
Definition in_declared_range (dev : libevdev) (ev : uinput_write) : bool :=
  match w_type ev with
  | EV_SYN => true
  | EV_KEY => (0 <=? w_value ev) && (w_value ev <=? 1)
  | EV_ABS =>
      match libevdev_get_abs_info dev (w_code ev) with
      | Some a => (minimum a <=? w_value ev) && (w_value ev <=? maximum a)
      | None => false
      end
  | EV_FF => false
  end.

(** Whether the descriptor enables the type and code of a write;
    libevdev enables EV_SYN on every device. *)
Definition declared (dev : libevdev) (ev : uinput_write) : bool :=
  match w_type ev with
  | EV_SYN => true
  | type => libevdev_has_event_code dev type (w_code ev)
  end.

(** The types and codes that the commands write. *)
Definition written_codes : list (ev_type * ev_code) :=
  [ (EV_SYN, SYN_REPORT);
    (EV_ABS, ABS_HAT0Y); (EV_ABS, ABS_HAT0X);
    (EV_KEY, BTN_START); (EV_KEY, BTN_SELECT);
    (EV_KEY, BTN_THUMBL); (EV_KEY, BTN_THUMBR);
    (EV_KEY, BTN_TL); (EV_KEY, BTN_TR); (EV_KEY, BTN_MODE);
    (EV_KEY, BTN_SOUTH); (EV_KEY, BTN_EAST); (EV_KEY, BTN_WEST);
    (EV_KEY, BTN_NORTH);
    (EV_ABS, ABS_X); (EV_ABS, ABS_Y); (EV_ABS, ABS_RX); (EV_ABS, ABS_RY);
    (EV_ABS, ABS_Z); (EV_ABS, ABS_RZ) ].

Section Mirror.

Context {btn : Joypad.CONTROLLER_BTN}.

(** The trace agrees with a mask: the value last written on each
    button's key code and on each directional axis is the one the mask
    calls for. *)
Definition mirrors (h : libevdev_uinput) (evs : list uinput_write) (mask : Z)
    : bool :=
  forallb (fun e : Z * ev_code =>
             last_value h EV_KEY (snd e) evs =? key_value (fst e) mask)
          key_table
  && forallb (fun e : Z * Z * ev_code =>
                last_value h EV_ABS (snd e) evs
                =? hat_value (fst (fst e)) (snd (fst e)) mask)
             hat_table.

End Mirror.

(** Two states that differ at most in the mask and the callback. *)
Definition same_device (st st' : PS5JoypadState) : Prop :=
  joy st' = joy st
  /\ events_thread st' = events_thread st
  /\ stop_listening_events st' = stop_listening_events st.

(** * Properties *)

(** ** Running computations *)

Lemma bind_run {S T} (m : M S) (f : S -> M T) (w : World) :
  (m ≫= f) w = match m w with Some (v, w') => f v w' | None => None end.
Proof. reflexivity. Qed.

Lemma set_written_nil (w : World) : set_written (fun evs => evs ++ []) w = w.
Proof. destruct w; unfold set_written; simpl. by rewrite app_nil_r. Qed.

Lemma deref_run (l : loc) (st : PS5JoypadState) (w : World) :
  heap w !! l = Some st -> deref (Some l) w = Some (st, w).
Proof. intros H. unfold deref. by rewrite H. Qed.

Lemma assign_run (l : loc) (st : PS5JoypadState) f (w : World) :
  heap w !! l = Some st ->
  assign (Some l) f w = Some (tt, set_heap <[l := f st]> w).
Proof. intros H. unfold assign. rewrite bind_run, (deref_run _ _ _ H). reflexivity. Qed.

Lemma write_run h type code v (w : World) :
  libevdev_uinput_write_event (Some h) type code v w
  = Some (tt, set_written (fun evs => evs ++ [mk_write h type code v]) w).
Proof. reflexivity. Qed.

Lemma when_write_run (c : bool) h type code v (w : World) :
  when c (libevdev_uinput_write_event (Some h) type code v) w
  = Some (tt, set_written
                (fun evs => evs ++ (if c then [mk_write h type code v] else [])) w).
Proof. destruct c; simpl; [reflexivity|]. by rewrite set_written_nil. Qed.

(** Unfold the monad's operations at a known world. *)
Ltac run_M :=
  cbv beta iota zeta delta
    [mbind M_bind mret M_ret modify_world fault when nonnull
     libevdev_uinput_write_event set_written set_heap set_threads];
  simpl.

Lemma when_true (m : M unit) : when true m = m.
Proof. reflexivity. Qed.

Lemma when_false (m : M unit) : when false m = mret tt.
Proof. reflexivity. Qed.

Lemma ret_run {T} (v : T) (w : World) : (mret v : M T) w = Some (v, w).
Proof. reflexivity. Qed.

Lemma set_written_twice f g (w : World) :
  set_written f (set_written g w) = set_written (fun evs => f (g evs)) w.
Proof. reflexivity. Qed.

(** Run a straight line of device writes, keeping the world flat. *)
Ltac run_writes :=
  repeat first [ rewrite bind_run | rewrite when_write_run | rewrite write_run
               | rewrite ret_run | rewrite set_written_twice
               | progress cbv beta iota ].

Lemma truthy_0 : truthy 0 = false.
Proof. reflexivity. Qed.

Lemma truthy_true (z : Z) : truthy z = true <-> z <> 0.
Proof. unfold truthy. destruct (Z.eqb_spec z 0); simpl; split; congruence. Qed.

Lemma truthy_false (z : Z) : truthy z = false <-> z = 0.
Proof. unfold truthy. destruct (Z.eqb_spec z 0); simpl; split; congruence. Qed.

(** ** What each command does to the world *)

Section CommandRuns.

Context {btn : Joypad.CONTROLLER_BTN}.
Import Joypad.

Variables (l : loc) (st : PS5JoypadState) (w : World).
Hypothesis Hst : heap w !! l = Some st.

Lemma set_stick_live h stick_type x y :
  joy st = Some h ->
  set_stick (session l) stick_type x y w
  = Some (tt, set_written (fun evs => evs ++ stick_events h stick_type x y) w).
Proof.
  intros Hjoy. unfold set_stick, session; simpl.
  rewrite bind_run, (deref_run _ _ _ Hst), Hjoy; simpl.
  destruct stick_type; run_M; by rewrite <- !app_assoc.
Qed.

Lemma set_stick_absent stick_type x y :
  joy st = None ->
  set_stick (session l) stick_type x y w = Some (tt, w).
Proof.
  intros Hjoy. unfold set_stick, session; simpl.
  by rewrite bind_run, (deref_run _ _ _ Hst), Hjoy.
Qed.

Lemma set_triggers_live h left right :
  joy st = Some h ->
  set_triggers (session l) left right w
  = Some (tt, set_written (fun evs => evs ++ trigger_events h left right) w).
Proof.
  intros Hjoy. unfold set_triggers, session; simpl.
  rewrite bind_run, (deref_run _ _ _ Hst), Hjoy; simpl.
  destruct (0 <? left), (0 <? right); run_M; by rewrite <- !app_assoc.
Qed.

Lemma set_triggers_absent left right :
  joy st = None ->
  set_triggers (session l) left right w = Some (tt, w).
Proof.
  intros Hjoy. unfold set_triggers, session; simpl.
  by rewrite bind_run, (deref_run _ _ _ Hst), Hjoy.
Qed.

Lemma edge_events_unchanged h m : edge_events h m m = [].
Proof.
  unfold edge_events, hat_edge, key_edge, changed; simpl.
  by rewrite Z.lxor_nilpotent, !Z.land_0_r, truthy_0.
Qed.

Lemma set_pressed_buttons_live h newly_pressed :
  joy st = Some h ->
  set_pressed_buttons (session l) newly_pressed w
  = Some (tt, mkWorld (<[l := set_currently_pressed_btns newly_pressed st]> (heap w))
                (threads w)
                (written w ++ frame h (currently_pressed_btns st) newly_pressed)).
Proof.
  intros Hjoy. unfold set_pressed_buttons, session.
  cbv beta iota zeta delta [_state].
  rewrite bind_run, (deref_run _ _ _ Hst); cbv beta iota.
  rewrite bind_run, (deref_run _ _ _ Hst), Hjoy; cbv beta iota delta [nonnull].
  rewrite when_true.
  destruct (truthy (Z.lxor newly_pressed (currently_pressed_btns st))) eqn:Hch.
  - rewrite when_true. run_writes.
    rewrite (assign_run l st) by exact Hst.
    unfold set_heap, set_written; cbn [heap threads written].
    do 2 f_equal. f_equal.
    unfold frame, edge_events, hat_edge, key_edge, changed, key_value,
      hat_value, syn_report.
    cbn [flat_map hat_table key_table fst snd].
    rewrite ?app_nil_r, <- ?app_assoc. reflexivity.
  - rewrite when_false. run_writes.
    apply truthy_false, Z.lxor_eq in Hch. rewrite Hch.
    rewrite (assign_run l st) by exact Hst.
    unfold frame. rewrite edge_events_unchanged.
    unfold set_heap, set_written; cbn [heap threads written].
    reflexivity.
Qed.
Lemma set_pressed_buttons_absent newly_pressed :
  joy st = None ->
  set_pressed_buttons (session l) newly_pressed w
  = Some (tt, set_heap <[l := set_currently_pressed_btns newly_pressed st]> w).
Proof.
  intros Hjoy. unfold set_pressed_buttons, session; simpl.
  rewrite bind_run, (deref_run _ _ _ Hst).
  rewrite bind_run, (deref_run _ _ _ Hst), Hjoy; simpl.
  run_writes. by rewrite (assign_run l st).
Qed.

Lemma set_on_rumble_run callback :
  set_on_rumble (session l) callback w
  = Some (tt, set_heap <[l := set_on_rumble_field (Some callback) st]> w).
Proof. unfold set_on_rumble, session; simpl. by apply assign_run. Qed.

End CommandRuns.

(** ** The tables and the edge events *)

Lemma truthy_land_pow2 (k m : Z) :
  0 <= k -> truthy (Z.land (2 ^ k) m) = Z.testbit m k.
Proof.
  intros Hk.
  assert (Z.land (2 ^ k) m = if Z.testbit m k then 2 ^ k else 0) as ->.
  { apply Z.bits_inj'. intros n Hn.
    rewrite Z.land_spec, Z.pow2_bits_eqb by done.
    destruct (Z.eqb_spec k n) as [->|Hne]; simpl.
    - destruct (Z.testbit m n); [by rewrite Z.pow2_bits_true|by rewrite Z.bits_0].
    - destruct (Z.testbit m k); [|by rewrite Z.bits_0].
      by rewrite Z.pow2_bits_false. }
  destruct (Z.testbit m k); [|done].
  apply truthy_true. pose proof (Z.pow_pos_nonneg 2 k). lia.
Qed.

Lemma last_cons_default {T} (x d : T) (xs : list T) :
  List.last (x :: xs) d = List.last xs x.
Proof.
  revert x d. induction xs as [|y ys IH]; intros x d; [done|].
  change (List.last (x :: y :: ys) d) with (List.last (y :: ys) d).
  by rewrite !IH.
Qed.

Lemma flat_map_codes_sublist {E} (f : E -> list uinput_write)
    (code : E -> ev_code) (tbl : list E) :
  (forall e, f e = [] \/ exists ev, f e = [ev] /\ w_code ev = code e) ->
  sublist (map w_code (flat_map f tbl)) (map code tbl).
Proof.
  intros Hf. induction tbl as [|e tbl IH]; simpl; [constructor|].
  destruct (Hf e) as [->|(ev & -> & <-)]; simpl.
  - by apply sublist_cons.
  - by apply sublist_skip.
Qed.

Lemma table_functional {K} (tbl : list (K * ev_code)) :
  NoDup (map snd tbl) ->
  forall a b c, In (a, c) tbl -> In (b, c) tbl -> a = b.
Proof.
  induction tbl as [|[k c'] tbl IH]; simpl; intros Hnd a b c; [done|].
  apply NoDup_cons in Hnd as [Hnotin Hnd].
  intros [Ha|Ha] [Hb|Hb].
  - congruence.
  - injection Ha as -> ->. destruct Hnotin.
    apply list_elem_of_In. by apply (in_map snd) in Hb.
  - injection Hb as -> ->. destruct Hnotin.
    apply list_elem_of_In. by apply (in_map snd) in Ha.
  - by apply (IH Hnd a b c).
Qed.

Section EncoderFacts.

Context {btn : Joypad.CONTROLLER_BTN}.
Import Joypad.

Lemma edge_codes_NoDup : NoDup (map snd hat_table ++ map snd key_table).
Proof. simpl. compute_done. Qed.

Lemma key_table_functional flag flag' code :
  In (flag, code) key_table -> In (flag', code) key_table -> flag = flag'.
Proof.
  apply table_functional.
  by destruct (proj1 (NoDup_app _ _) edge_codes_NoDup) as (_ & _ & ?).
Qed.

Lemma hat_table_functional neg pos neg' pos' code :
  In (neg, pos, code) hat_table -> In (neg', pos', code) hat_table ->
  neg = neg' /\ pos = pos'.
Proof.
  intros H1 H2.
  assert ((neg, pos) = (neg', pos')) as Heq; [|by injection Heq].
  revert H1 H2. apply table_functional.
  by destruct (proj1 (NoDup_app _ _) edge_codes_NoDup) as (? & _ & _).
Qed.

Lemma in_key_edge h old new e ev :
  In ev (key_edge h old new e) <->
  changed (fst e) old new = true
  /\ ev = mk_write h EV_KEY (snd e) (key_value (fst e) new).
Proof.
  unfold key_edge. destruct (changed (fst e) old new); simpl.
  - split; [intros [<-|[]]; done|intros [_ ->]; by left].
  - split; [intros []|intros [? _]; done].
Qed.

Lemma in_hat_edge h old new e ev :
  In ev (hat_edge h old new e) <->
  changed (Z.lor (fst (fst e)) (snd (fst e))) old new = true
  /\ ev = mk_write h EV_ABS (snd e) (hat_value (fst (fst e)) (snd (fst e)) new).
Proof.
  unfold hat_edge.
  destruct (changed (Z.lor (fst (fst e)) (snd (fst e))) old new); simpl.
  - split; [intros [<-|[]]; done|intros [_ ->]; by left].
  - split; [intros []|intros [? _]; done].
Qed.

Lemma in_edge_events h old new ev :
  In ev (edge_events h old new) <->
  (exists neg pos code, In (neg, pos, code) hat_table
     /\ changed (Z.lor neg pos) old new = true
     /\ ev = mk_write h EV_ABS code (hat_value neg pos new))
  \/ (exists flag code, In (flag, code) key_table
     /\ changed flag old new = true
     /\ ev = mk_write h EV_KEY code (key_value flag new)).
Proof.
  unfold edge_events. rewrite in_app_iff, !in_flat_map. split.
  - intros [([[neg pos] code] & Hin & Hev)|([flag code] & Hin & Hev)].
    + apply in_hat_edge in Hev as [Hch ->]. left. by exists neg, pos, code.
    + apply in_key_edge in Hev as [Hch ->]. right. by exists flag, code.
  - intros [(neg & pos & code & Hin & Hch & ->)|(flag & code & Hin & Hch & ->)].
    + left. exists (neg, pos, code). split; [done|]. by apply in_hat_edge.
    + right. exists (flag, code). split; [done|]. by apply in_key_edge.
Qed.

Lemma key_event_iff h old new flag code v :
  In (flag, code) key_table ->
  In (mk_write h EV_KEY code v) (edge_events h old new) <->
  changed flag old new = true /\ v = key_value flag new.
Proof.
  intros Hin. rewrite in_edge_events. split.
  - intros [(neg & pos & c & _ & _ & ?)|(flag' & c & Hin' & Hch & Heq)];
      [done|].
    injection Heq as <- ->.
    by rewrite (key_table_functional _ _ _ Hin Hin').
  - intros [Hch ->]. right. by exists flag, code.
Qed.

Lemma hat_event_iff h old new neg pos code v :
  In (neg, pos, code) hat_table ->
  In (mk_write h EV_ABS code v) (edge_events h old new) <->
  changed (Z.lor neg pos) old new = true /\ v = hat_value neg pos new.
Proof.
  intros Hin. rewrite in_edge_events. split.
  - intros [(neg' & pos' & c & Hin' & Hch & Heq)|(flag' & c & _ & _ & ?)];
      [|done].
    injection Heq as <- ->.
    by destruct (hat_table_functional _ _ _ _ _ Hin Hin') as [-> ->].
  - intros [Hch ->]. left. by exists neg, pos, code.
Qed.

Lemma edge_events_NoDup h old new : NoDup (edge_events h old new).
Proof.
  apply (NoDup_fmap_1 w_code).
  apply (sublist_NoDup _ _ edge_codes_NoDup).
  unfold edge_events. change (w_code <$> ?l) with (map w_code l).
  rewrite map_app. apply sublist_app; apply flat_map_codes_sublist.
  - intros e. unfold hat_edge. destruct (changed _ _ _); eauto.
  - intros e. unfold key_edge. destruct (changed _ _ _); eauto.
Qed.

Lemma changed_pow2 (k old new : Z) :
  0 <= k -> changed (2 ^ k) old new = xorb (Z.testbit new k) (Z.testbit old k).
Proof.
  intros Hk. unfold changed. by rewrite truthy_land_pow2, Z.lxor_spec.
Qed.

End EncoderFacts.

(** ** Sequences of mask updates *)

Lemma press_all_live `{btn : Joypad.CONTROLLER_BTN} (l : loc)
    (h : libevdev_uinput) (masks : list Z) :
  forall (w : World) (st : PS5JoypadState),
    heap w !! l = Some st -> joy st = Some h ->
    exists w',
      press_all (session l) masks w = Some (tt, w')
      /\ written w' = written w ++ frames h (currently_pressed_btns st) masks
      /\ threads w' = threads w
      /\ heap w' !! l
         = Some (set_currently_pressed_btns
                   (List.last masks (currently_pressed_btns st)) st).
Proof.
  induction masks as [|m masks IH]; intros w st Hst Hjoy.
  - exists w. simpl. rewrite app_nil_r, Hst. by destruct st.
  - cbn [press_all]. rewrite bind_run.
    rewrite (set_pressed_buttons_live l st w Hst h m Hjoy).
    set (w1 := mkWorld _ _ _).
    destruct (IH w1 (set_currently_pressed_btns m st)) as (w' & Hrun & Hw & Ht & Hh).
    { apply lookup_insert_eq. }
    { exact Hjoy. }
    exists w'. split; [exact Hrun|]. rewrite Hw, Ht, Hh.
    cbn [w1 written threads currently_pressed_btns set_currently_pressed_btns frames].
    rewrite last_cons_default, <- app_assoc. done.
Qed.

(** ** The claims about the state encoder *)

(** C1. On a session with a live device handle, a call of
    [set_pressed_buttons] writes exactly the events of the flags met by
    the XOR of the stored mask and the new one (each once, none for a flag
    the XOR misses, hence none for an unchanged bit), followed by exactly
    one SYN_REPORT; and a sequence of calls writes one such frame per
    call, each against the mask of the call before. *)
Theorem set_pressed_buttons_emits_xor_edges `{btn : Joypad.CONTROLLER_BTN}
    (l : loc) (st : PS5JoypadState) (h : libevdev_uinput) (w : World)
    (masks : list Z) :
  heap w !! l = Some st ->
  joy st = Some h ->
  let prev := currently_pressed_btns st in
  (forall new, exists w',
      set_pressed_buttons (session l) new w = Some (tt, w')
      /\ written w' = written w ++ edge_events h prev new ++ [syn_report h]
      /\ heap w' !! l = Some (set_currently_pressed_btns new st))
  /\ (exists w',
      press_all (session l) masks w = Some (tt, w')
      /\ written w' = written w ++ frames h prev masks)
  /\ (forall old new ms,
      frames h old (new :: ms)
      = edge_events h old new ++ [syn_report h] ++ frames h new ms)
  /\ forall old new,
      NoDup (edge_events h old new)
      /\ Forall (fun ev => w_dev ev = h /\ w_type ev <> EV_SYN)
           (edge_events h old new)
      /\ (forall flag code v, In (flag, code) (@key_table btn) ->
            In (mk_write h EV_KEY code v) (edge_events h old new) <->
            Z.land flag (Z.lxor new old) <> 0
            /\ v = if truthy (Z.land new flag) then 1 else 0)
      /\ (forall neg pos code v, In (neg, pos, code) (@hat_table btn) ->
            In (mk_write h EV_ABS code v) (edge_events h old new) <->
            Z.land (Z.lor neg pos) (Z.lxor new old) <> 0
            /\ v = hat_value neg pos new)
      /\ (forall flag code k, In (flag, code) (@key_table btn) ->
            0 <= k -> flag = 2 ^ k ->
            (exists v, In (mk_write h EV_KEY code v) (edge_events h old new)) <->
            Z.testbit old k <> Z.testbit new k)
      /\ (forall ev, In ev (edge_events h old new) ->
            (w_type ev = EV_KEY /\ exists flag, In (flag, w_code ev) (@key_table btn))
            \/ (w_type ev = EV_ABS
                /\ exists neg pos, In (neg, pos, w_code ev) (@hat_table btn))).
Proof.
  intros Hst Hjoy prev. split; [|split; [|split]].
  - intros new. eexists. split.
    + exact (set_pressed_buttons_live l st w Hst h new Hjoy).
    + simpl. split; [done|]. apply lookup_insert_eq.
  - destruct (press_all_live l h masks w st Hst Hjoy) as (w' & ? & ? & _).
    by exists w'.
  - intros old new ms. simpl. unfold frame. by rewrite <- app_assoc.
  - intros old new.
    split; [apply edge_events_NoDup|].
    split.
    { apply List.Forall_forall. intros ev Hev. apply in_edge_events in Hev.
      destruct Hev as [(? & ? & ? & _ & _ & ->)|(? & ? & _ & _ & ->)]; done. }
    split.
    { intros flag code v Hin. rewrite (key_event_iff h old new flag code v Hin).
      unfold changed, key_value. by rewrite truthy_true. }
    split.
    { intros neg pos code v Hin.
      rewrite (hat_event_iff h old new neg pos code v Hin).
      unfold changed. by rewrite truthy_true. }
    split.
    { intros flag code k Hin Hk ->. split.
      - intros [v Hev]. apply (key_event_iff h old new _ code v Hin) in Hev.
        destruct Hev as [Hch _]. rewrite changed_pow2 in Hch by done.
        destruct (Z.testbit old k), (Z.testbit new k); done.
      - intros Hne. exists (key_value (2 ^ k) new).
        apply (key_event_iff h old new _ code _ Hin). split; [|done].
        rewrite changed_pow2 by done.
        destruct (Z.testbit old k), (Z.testbit new k); done. }
    intros ev Hev. apply in_edge_events in Hev.
    destruct Hev as [(neg & pos & c & Hin & _ & ->)|(flag & c & Hin & _ & ->)].
    + right. split; [done|]. by exists neg, pos.
    + left. split; [done|]. by exists flag.
Qed.

Lemma set_pressed_buttons_emits_xor_edges_witness :
  heap (sample_world (sample_state 7%nat)) !! 1%positive
  = Some (sample_state 7%nat)
  /\ joy (sample_state 7%nat) = Some 7%nat
  /\ exists w',
      @press_all moonlight_btn (session 1%positive) [0x1001; 0x1002]
        (sample_world (sample_state 7%nat)) = Some (tt, w')
      /\ written w'
         = [] ++ @frames moonlight_btn 7%nat 0 [0x1001; 0x1002].
Proof.
  split; [reflexivity|]. split; [reflexivity|].
  exact (proj1 (proj2 (@set_pressed_buttons_emits_xor_edges moonlight_btn
    1%positive (sample_state 7%nat) 7%nat (sample_world (sample_state 7%nat))
    [0x1001; 0x1002] eq_refl eq_refl))).
Defined.

Example frames_sample :
  @frames moonlight_btn 7%nat 0 [0x1001; 0x1002]
  = [ mk_write 7%nat EV_ABS ABS_HAT0Y (-1); mk_write 7%nat EV_KEY BTN_SOUTH 1;
      mk_write 7%nat EV_SYN SYN_REPORT 0;
      mk_write 7%nat EV_ABS ABS_HAT0Y 1; mk_write 7%nat EV_SYN SYN_REPORT 0 ].
Proof. reflexivity. Qed.

(** C2. On a session with a live handle, when a directional flag of a
    pair changed between the stored mask and the new one, the call writes
    on that pair's axis exactly one event, whose value is -1 when the up
    (left) flag is set in the new mask, else +1 when the down (right) flag
    is set, else 0: neutral when both flags are absent, negative when both
    are set. Repeating the same mask writes no axis event again, only the
    report. *)
Theorem dpad_axis_negative_wins `{btn : Joypad.CONTROLLER_BTN}
    (l : loc) (st : PS5JoypadState) (h : libevdev_uinput) (w : World)
    (new : Z) :
  heap w !! l = Some st ->
  joy st = Some h ->
  let old := currently_pressed_btns st in
  exists w' evs,
    set_pressed_buttons (session l) new w = Some (tt, w')
    /\ written w' = written w ++ evs ++ [syn_report h]
    /\ NoDup evs
    /\ (Z.land (Z.lor Joypad.DPAD_UP Joypad.DPAD_DOWN) (Z.lxor new old) <> 0 ->
        (forall v, In (mk_write h EV_ABS ABS_HAT0Y v) evs <->
           v = if truthy (Z.land new Joypad.DPAD_UP) then -1
               else if truthy (Z.land new Joypad.DPAD_DOWN) then 1 else 0)
        /\ (Z.land new Joypad.DPAD_UP = 0 -> Z.land new Joypad.DPAD_DOWN = 0 ->
            In (mk_write h EV_ABS ABS_HAT0Y 0) evs)
        /\ (Z.land new Joypad.DPAD_UP <> 0 -> Z.land new Joypad.DPAD_DOWN <> 0 ->
            In (mk_write h EV_ABS ABS_HAT0Y (-1)) evs))
    /\ (Z.land (Z.lor Joypad.DPAD_LEFT Joypad.DPAD_RIGHT) (Z.lxor new old) <> 0 ->
        (forall v, In (mk_write h EV_ABS ABS_HAT0X v) evs <->
           v = if truthy (Z.land new Joypad.DPAD_LEFT) then -1
               else if truthy (Z.land new Joypad.DPAD_RIGHT) then 1 else 0)
        /\ (Z.land new Joypad.DPAD_LEFT = 0 -> Z.land new Joypad.DPAD_RIGHT = 0 ->
            In (mk_write h EV_ABS ABS_HAT0X 0) evs)
        /\ (Z.land new Joypad.DPAD_LEFT <> 0 -> Z.land new Joypad.DPAD_RIGHT <> 0 ->
            In (mk_write h EV_ABS ABS_HAT0X (-1)) evs))
    /\ exists w'',
        set_pressed_buttons (session l) new w' = Some (tt, w'')
        /\ written w'' = written w' ++ [syn_report h].
Proof.
  intros Hst Hjoy old.
  assert (forall neg pos code, In (neg, pos, code) hat_table ->
    Z.land (Z.lor neg pos) (Z.lxor new old) <> 0 ->
    (forall v, In (mk_write h EV_ABS code v) (edge_events h old new) <->
       v = if truthy (Z.land new neg) then -1
           else if truthy (Z.land new pos) then 1 else 0)
    /\ (Z.land new neg = 0 -> Z.land new pos = 0 ->
        In (mk_write h EV_ABS code 0) (edge_events h old new))
    /\ (Z.land new neg <> 0 -> Z.land new pos <> 0 ->
        In (mk_write h EV_ABS code (-1)) (edge_events h old new))) as Haxis.
  { intros neg pos code Hin Hch. apply truthy_true in Hch.
    assert (forall v, In (mk_write h EV_ABS code v) (edge_events h old new) <->
              v = hat_value neg pos new) as Hiff.
    { intros v. rewrite (hat_event_iff h old new neg pos code v Hin).
      unfold changed. rewrite Hch. tauto. }
    split; [exact Hiff|]. split.
    - intros Hneg Hpos. apply Hiff. unfold hat_value.
      by rewrite Hneg, Hpos.
    - intros Hneg%truthy_true _. apply Hiff. unfold hat_value.
      by rewrite Hneg. }
  eexists _, (edge_events h old new).
  split; [exact (set_pressed_buttons_live l st w Hst h new Hjoy)|].
  split; [reflexivity|].
  split; [apply edge_events_NoDup|].
  split; [apply Haxis; simpl; auto|].
  split; [apply Haxis; simpl; auto|].
  eexists. split.
  - apply set_pressed_buttons_live with (st := set_currently_pressed_btns new st).
    + apply lookup_insert_eq.
    + exact Hjoy.
  - cbn [written currently_pressed_btns set_currently_pressed_btns].
    unfold frame. by rewrite edge_events_unchanged.
Qed.

Lemma dpad_axis_negative_wins_witness :
  heap (sample_world (sample_state 7%nat)) !! 1%positive
  = Some (sample_state 7%nat)
  /\ joy (sample_state 7%nat) = Some 7%nat
  /\ exists w' evs,
      @set_pressed_buttons moonlight_btn (session 1%positive) 0x0003
        (sample_world (sample_state 7%nat)) = Some (tt, w')
      /\ written w' = [] ++ evs ++ [syn_report 7%nat].
Proof.
  split; [reflexivity|]. split; [reflexivity|].
  destruct (@dpad_axis_negative_wins moonlight_btn 1%positive
              (sample_state 7%nat) 7%nat (sample_world (sample_state 7%nat))
              0x0003 eq_refl eq_refl) as (w' & evs & Hrun & Hw & _).
  exists w', evs. exact (conj Hrun Hw).
Defined.

Example dpad_both_pressed :
  @edge_events moonlight_btn 7%nat 0 0x0003
  = [mk_write 7%nat EV_ABS ABS_HAT0Y (-1)].
Proof. reflexivity. Qed.

Example dpad_released :
  @edge_events moonlight_btn 7%nat 0x0003 0
  = [mk_write 7%nat EV_ABS ABS_HAT0Y 0].
Proof. reflexivity. Qed.

(** C3. On a session with a live handle, for either stick and every
    signed 16-bit pair (x, y), [set_stick] writes x unchanged on the
    stick's horizontal axis, the negation of y on its vertical axis, then
    one SYN_REPORT, and nothing else changes. *)
Theorem set_stick_inverts_vertical
    (l : loc) (st : PS5JoypadState) (h : libevdev_uinput) (w : World)
    (stick_type : Joypad.STICK_POSITION) (x y : Z) :
  heap w !! l = Some st ->
  joy st = Some h ->
  is_int16 x -> is_int16 y ->
  set_stick (session l) stick_type x y w
  = Some (tt, mkWorld (heap w) (threads w)
                (written w ++
                 match stick_type with
                 | Joypad.LS => [ mk_write h EV_ABS ABS_X x;
                                  mk_write h EV_ABS ABS_Y (- y);
                                  mk_write h EV_SYN SYN_REPORT 0 ]
                 | Joypad.RS => [ mk_write h EV_ABS ABS_RX x;
                                  mk_write h EV_ABS ABS_RY (- y);
                                  mk_write h EV_SYN SYN_REPORT 0 ]
                 end)).
Proof.
  intros Hst Hjoy _ _.
  rewrite (set_stick_live l st w Hst h stick_type x y Hjoy).
  by destruct stick_type.
Qed.

Lemma set_stick_inverts_vertical_witness :
  heap (sample_world (sample_state 7%nat)) !! 1%positive
  = Some (sample_state 7%nat)
  /\ joy (sample_state 7%nat) = Some 7%nat
  /\ is_int16 1000 /\ is_int16 2000
  /\ set_stick (session 1%positive) Joypad.LS 1000 2000
       (sample_world (sample_state 7%nat))
     = Some (tt, mkWorld (heap (sample_world (sample_state 7%nat))) []
                   ([] ++ [ mk_write 7%nat EV_ABS ABS_X 1000;
                            mk_write 7%nat EV_ABS ABS_Y (- 2000);
                            mk_write 7%nat EV_SYN SYN_REPORT 0 ])).
Proof.
  assert (is_int16 1000) as Hx by (unfold is_int16; lia).
  assert (is_int16 2000) as Hy by (unfold is_int16; lia).
  split; [reflexivity|]. split; [reflexivity|].
  split; [exact Hx|]. split; [exact Hy|].
  exact (set_stick_inverts_vertical 1%positive (sample_state 7%nat) 7%nat
           (sample_world (sample_state 7%nat)) Joypad.LS 1000 2000
           eq_refl eq_refl Hx Hy).
Defined.

(** The extreme of the range: the negation of -32768 is written as
    32768, not wrapped. *)
Example set_stick_most_negative :
  set_stick (session 1%positive) Joypad.RS (-16384) (-32768)
    (sample_world (sample_state 7%nat))
  = Some (tt, mkWorld (heap (sample_world (sample_state 7%nat))) []
                [ mk_write 7%nat EV_ABS ABS_RX (-16384);
                  mk_write 7%nat EV_ABS ABS_RY 32768;
                  mk_write 7%nat EV_SYN SYN_REPORT 0 ]).
Proof. reflexivity. Qed.

(** C4. On a session with a live handle, for every pressure pair in
    [0, 255], [set_triggers] writes the left pressure on ABS_Z and the
    right one on ABS_RZ as they are, then one SYN_REPORT; with (0, 0) both
    trigger axes are written back to 0. *)
Theorem set_triggers_passes_through
    (l : loc) (st : PS5JoypadState) (h : libevdev_uinput) (w : World)
    (left right : Z) :
  heap w !! l = Some st ->
  joy st = Some h ->
  0 <= left <= 255 -> 0 <= right <= 255 ->
  set_triggers (session l) left right w
  = Some (tt, mkWorld (heap w) (threads w)
                (written w ++ [ mk_write h EV_ABS ABS_Z left;
                                mk_write h EV_ABS ABS_RZ right;
                                mk_write h EV_SYN SYN_REPORT 0 ]))
  /\ set_triggers (session l) 0 0 w
     = Some (tt, mkWorld (heap w) (threads w)
                   (written w ++ [ mk_write h EV_ABS ABS_Z 0;
                                   mk_write h EV_ABS ABS_RZ 0;
                                   mk_write h EV_SYN SYN_REPORT 0 ])).
Proof.
  intros Hst Hjoy _ _.
  by rewrite !(set_triggers_live l st w Hst h _ _ Hjoy).
Qed.

Lemma set_triggers_passes_through_witness :
  heap (sample_world (sample_state 7%nat)) !! 1%positive
  = Some (sample_state 7%nat)
  /\ joy (sample_state 7%nat) = Some 7%nat
  /\ 0 <= 125 <= 255 /\ 0 <= 255 <= 255
  /\ set_triggers (session 1%positive) 125 255
       (sample_world (sample_state 7%nat))
     = Some (tt, mkWorld (heap (sample_world (sample_state 7%nat))) []
                   ([] ++ [ mk_write 7%nat EV_ABS ABS_Z 125;
                            mk_write 7%nat EV_ABS ABS_RZ 255;
                            mk_write 7%nat EV_SYN SYN_REPORT 0 ])).
Proof.
  assert (0 <= 125 <= 255) as Hl by lia.
  assert (0 <= 255 <= 255) as Hr by lia.
  split; [reflexivity|]. split; [reflexivity|].
  split; [exact Hl|]. split; [exact Hr|].
  exact (proj1 (set_triggers_passes_through 1%positive (sample_state 7%nat)
           7%nat (sample_world (sample_state 7%nat)) 125 255
           eq_refl eq_refl Hl Hr)).
Defined.

(** C9. For every signed 16-bit pair, [set_triggers] runs as the
    branch-free update does, on every session and in every world; so on a
    live handle a negative pressure is written as it is, not clamped to
    the declared range. *)
Theorem set_triggers_is_branch_free
    (this : PS5Joypad) (left right : Z) (w : World) :
  is_int16 left -> is_int16 right ->
  set_triggers this left right w = set_triggers_branch_free this left right w
  /\ forall l st h,
       this = session l -> heap w !! l = Some st -> joy st = Some h ->
       set_triggers this left right w
       = Some (tt, mkWorld (heap w) (threads w)
                     (written w ++ [ mk_write h EV_ABS ABS_Z left;
                                     mk_write h EV_ABS ABS_RZ right;
                                     mk_write h EV_SYN SYN_REPORT 0 ])).
Proof.
  intros _ _. split.
  - unfold set_triggers, set_triggers_branch_free.
    by destruct (0 <? left), (0 <? right).
  - intros l st h -> Hst Hjoy.
    by rewrite (set_triggers_live l st w Hst h _ _ Hjoy).
Qed.

Lemma set_triggers_is_branch_free_witness :
  is_int16 (-5) /\ is_int16 300
  /\ set_triggers (session 1%positive) (-5) 300
       (sample_world (sample_state 7%nat))
     = Some (tt, mkWorld (heap (sample_world (sample_state 7%nat))) []
                   ([] ++ [ mk_write 7%nat EV_ABS ABS_Z (-5);
                            mk_write 7%nat EV_ABS ABS_RZ 300;
                            mk_write 7%nat EV_SYN SYN_REPORT 0 ])).
Proof.
  assert (is_int16 (-5)) as Hl by (unfold is_int16; lia).
  assert (is_int16 300) as Hr by (unfold is_int16; lia).
  split; [exact Hl|]. split; [exact Hr|].
  exact (proj2 (set_triggers_is_branch_free (session 1%positive) (-5) 300
                  (sample_world (sample_state 7%nat)) Hl Hr)
           1%positive (sample_state 7%nat) 7%nat eq_refl eq_refl eq_refl).
Defined.

(** C6. When the device handle is absent no command writes an event
    and none faults: [set_stick] and [set_triggers] leave the world as it
    is, [set_pressed_buttons] changes nothing but the stored mask, which
    becomes the new mask. *)
Theorem handle_absent_commands_write_nothing `{btn : Joypad.CONTROLLER_BTN}
    (l : loc) (st : PS5JoypadState) (w : World) :
  heap w !! l = Some st ->
  joy st = None ->
  (forall stick_type x y, set_stick (session l) stick_type x y w = Some (tt, w))
  /\ (forall left right, set_triggers (session l) left right w = Some (tt, w))
  /\ (forall new, exists w',
        set_pressed_buttons (session l) new w = Some (tt, w')
        /\ written w' = written w
        /\ threads w' = threads w
        /\ heap w' = <[l := set_currently_pressed_btns new st]> (heap w)
        /\ currently_pressed_btns (set_currently_pressed_btns new st) = new
        /\ joy (set_currently_pressed_btns new st) = None)
  /\ (forall c, exists w',
        run_command (session l) c w = Some (tt, w')
        /\ written w' = written w).
Proof.
  intros Hst Hjoy.
  split; [intros; by apply set_stick_absent with (st := st)|].
  split; [intros; by apply set_triggers_absent with (st := st)|].
  split.
  - intros new. eexists. split.
    + by apply set_pressed_buttons_absent with (st := st).
    + done.
  - intros [new|s x y|left right|cb]; cbn [run_command]; eexists; split.
    + by apply set_pressed_buttons_absent with (st := st).
    + done.
    + by apply set_stick_absent with (st := st).
    + done.
    + by apply set_triggers_absent with (st := st).
    + done.
    + by apply set_on_rumble_run with (st := st).
    + done.
Qed.

Lemma handle_absent_commands_write_nothing_witness :
  heap (sample_world default_state) !! 1%positive = Some default_state
  /\ joy default_state = None
  /\ exists w',
      @set_pressed_buttons moonlight_btn (session 1%positive) 0x1001
        (sample_world default_state) = Some (tt, w')
      /\ written w' = written (sample_world default_state).
Proof.
  split; [reflexivity|]. split; [reflexivity|].
  destruct (proj1 (proj2 (proj2 (@handle_absent_commands_write_nothing
              moonlight_btn 1%positive default_state
              (sample_world default_state) eq_refl eq_refl))) 0x1001)
    as (w' & Hrun & Hw & _).
  exists w'. exact (conj Hrun Hw).
Defined.

(** ** Creation and destruction *)

Section CreateFacts.

Variable uinput_create : libevdev -> World -> Z * libevdev_uinput.
Variable strerror : Z -> string.
Variable default_mac_address : list Z.

Lemma create_ps_controller_run device (w : World) :
  create_ps_controller uinput_create strerror device w
  = Some (let r := uinput_create (ps_controller_dev device) w in
          if truthy (fst r) then Error (strerror (- fst r)) else Ok (snd r),
          w).
Proof.
  unfold create_ps_controller, libevdev_uinput_create_from_device.
  rewrite bind_run. cbv beta iota zeta.
  by destruct (truthy (fst (uinput_create (ps_controller_dev device) w))).
Qed.

Lemma create_refused device (w : World) :
  fst (uinput_create (ps_controller_dev device) w) <> 0 ->
  create uinput_create strerror default_mac_address device w
  = Some (Error (strerror (- fst (uinput_create (ps_controller_dev device) w))),
          w).
Proof.
  intros Herr%truthy_true. unfold create.
  rewrite bind_run, create_ps_controller_run. cbv beta iota zeta.
  by rewrite Herr.
Qed.

Lemma create_accepted device (w : World) :
  fst (uinput_create (ps_controller_dev device) w) = 0 ->
  let l := fresh (dom (heap w)) in
  let uidev := snd (uinput_create (ps_controller_dev device) w) in
  create uinput_create strerror default_mac_address device w
  = Some (Ok (session l),
          mkWorld (<[l := set_joy (Some uidev) default_state]> (heap w))
            (threads w ++ [mk_thread event_listener (Some l) true false])
            (written w)).
Proof.
  intros Herr%truthy_false l uidev.
  assert (l = fresh (dom (heap w))) as Hl by reflexivity.
  assert (uidev = snd (uinput_create (ps_controller_dev device) w)) as Hu
    by reflexivity.
  clearbody l uidev.
  unfold create.
  rewrite bind_run, create_ps_controller_run. cbv beta iota zeta.
  rewrite Herr, <- Hu.
  unfold PS5Joypad_ctor. rewrite !bind_run.
  unfold make_shared at 1. cbv beta iota zeta. rewrite <- Hl.
  rewrite ret_run. cbv beta iota delta [_state].
  rewrite bind_run, (assign_run l default_state) by apply lookup_insert_eq.
  unfold set_heap; cbn [heap threads written]. rewrite insert_insert_eq.
  rewrite bind_run. unfold thread_start at 1.
  unfold set_threads; cbn [heap threads written].
  rewrite bind_run. unfold thread_move_assign.
  rewrite bind_run, (deref_run l (set_joy (Some uidev) default_state))
    by apply lookup_insert_eq.
  cbn [events_thread set_joy default_state joinable nonnull].
  rewrite (assign_run l (set_joy (Some uidev) default_state))
    by apply lookup_insert_eq.
  unfold set_heap; cbn [heap threads written]. rewrite insert_insert_eq.
  rewrite bind_run. unfold thread_detach.
  set (st2 := set_events_thread _ _).
  rewrite bind_run, (deref_run l st2) by apply lookup_insert_eq.
  cbn [st2 events_thread set_events_thread].
  rewrite bind_run. unfold modify_world at 1.
  rewrite (assign_run l st2) by apply lookup_insert_eq.
  unfold set_heap, set_threads; cbn [heap threads written].
  rewrite insert_insert_eq.
  unfold PS5Joypad_dtor. cbn [_state nonnull]. rewrite when_false.
  rewrite bind_run, !ret_run.
  replace (length (threads w)) with (length (threads w) + 0)%nat by lia.
  rewrite alter_app_r. reflexivity.
Qed.

End CreateFacts.

(** ** What the commands leave alone *)

Lemma run_command_preserves `{btn : Joypad.CONTROLLER_BTN}
    (l : loc) (c : command) (w : World) (st : PS5JoypadState) :
  heap w !! l = Some st ->
  exists w' st',
    run_command (session l) c w = Some (tt, w')
    /\ heap w' !! l = Some st'
    /\ same_device st st'
    /\ threads w' = threads w.
Proof.
  intros Hst. unfold same_device.
  destruct c as [new|s x y|left right|cb]; cbn [run_command].
  - destruct (joy st) as [h|] eqn:Hjoy.
    + rewrite (set_pressed_buttons_live l st w Hst h new Hjoy).
      eexists _, _. split; [reflexivity|].
      split; [apply lookup_insert_eq|]. done.
    + rewrite (set_pressed_buttons_absent l st w Hst new Hjoy).
      eexists _, _. split; [reflexivity|].
      split; [apply lookup_insert_eq|]. done.
  - destruct (joy st) as [h|] eqn:Hjoy.
    + rewrite (set_stick_live l st w Hst h s x y Hjoy).
      by exists (set_written (fun evs => evs ++ stick_events h s x y) w), st.
    + rewrite (set_stick_absent l st w Hst s x y Hjoy). by exists w, st.
  - destruct (joy st) as [h|] eqn:Hjoy.
    + rewrite (set_triggers_live l st w Hst h left right Hjoy).
      by exists (set_written (fun evs => evs ++ trigger_events h left right) w), st.
    + rewrite (set_triggers_absent l st w Hst left right Hjoy). by exists w, st.
  - rewrite (set_on_rumble_run l st w Hst cb).
    eexists _, _. split; [reflexivity|].
    split; [apply lookup_insert_eq|]. done.
Qed.

Lemma run_commands_preserves `{btn : Joypad.CONTROLLER_BTN}
    (l : loc) (cs : list command) :
  forall (w : World) (st : PS5JoypadState),
    heap w !! l = Some st ->
    exists w' st',
      run_commands (session l) cs w = Some (tt, w')
      /\ heap w' !! l = Some st'
      /\ same_device st st'
      /\ threads w' = threads w.
Proof.
  induction cs as [|c cs IH]; intros w st Hst.
  - by exists w, st.
  - destruct (run_command_preserves l c w st Hst)
      as (w1 & st1 & Hrun1 & Hst1 & (Hj1 & He1 & Hs1) & Ht1).
    destruct (IH w1 st1 Hst1) as (w' & st' & Hrun & Hst' & (Hj & He & Hs) & Ht).
    exists w', st'. cbn [run_commands]. rewrite bind_run, Hrun1.
    split; [exact Hrun|]. split; [exact Hst'|].
    unfold same_device. by rewrite Hj, He, Hs, Ht.
Qed.

(** The destructor on a state whose thread object refers to no thread:
    the flag is set and nothing is waited for. *)
Lemma dtor_not_joinable (l : loc) (st : PS5JoypadState) (w : World) :
  heap w !! l = Some st ->
  events_thread st = None ->
  PS5Joypad_dtor (session l) w
  = Some (tt, set_heap <[l := set_stop_listening_events true st]> w).
Proof.
  intros Hst Hth. unfold PS5Joypad_dtor, session.
  cbn [_state nonnull]. rewrite when_true.
  rewrite bind_run, (assign_run l st) by done.
  rewrite bind_run, (deref_run l (set_stop_listening_events true st))
    by apply lookup_insert_eq.
  cbn [events_thread set_stop_listening_events joy]. rewrite Hth.
  cbn [joinable nonnull]. by rewrite andb_false_r.
Qed.


(** ** The claims about the session *)

(** C5. [create] returns an error exactly when the registration with
    uinput fails, and then it leaves the world as it found it: no state
    object, no thread. When the registration succeeds it returns a session
    on a fresh state that holds the handle obtained, with an empty
    previous mask, and the listener thread has been started on that
    state. *)
Theorem create_fails_iff_registration_fails
    (uinput_create : libevdev -> World -> Z * libevdev_uinput)
    (strerror : Z -> string) (default_mac_address : list Z)
    (device : DeviceDefinition) (w : World) :
  let r := uinput_create (ps_controller_dev device) w in
  let created := create uinput_create strerror default_mac_address device w in
  ((exists msg w', created = Some (Error msg, w')) <-> fst r <> 0)
  /\ (fst r <> 0 -> created = Some (Error (strerror (- fst r)), w))
  /\ (fst r = 0 ->
      exists l w' st,
        created = Some (Ok (session l), w')
        /\ heap w !! l = None
        /\ heap w' !! l = Some st
        /\ joy st = Some (snd r)
        /\ currently_pressed_btns st = 0
        /\ threads w' = threads w ++ [mk_thread event_listener (Some l) true false]
        /\ written w' = written w
        /\ forall l', l' <> l -> heap w' !! l' = heap w !! l').
Proof.
  intros r created.
  assert (fst r = 0 ->
          exists l w' st,
            created = Some (Ok (session l), w')
            /\ heap w !! l = None
            /\ heap w' !! l = Some st
            /\ joy st = Some (snd r)
            /\ currently_pressed_btns st = 0
            /\ threads w' = threads w
                 ++ [mk_thread event_listener (Some l) true false]
            /\ written w' = written w
            /\ forall l', l' <> l -> heap w' !! l' = heap w !! l') as Hok.
  { intros Hr. eexists _, _, _. split.
    - exact (create_accepted uinput_create strerror default_mac_address
               device w Hr).
    - split; [apply not_elem_of_dom, is_fresh|].
      split; [apply lookup_insert_eq|].
      repeat (split; [reflexivity|]).
      intros l' Hne. cbn [heap]. by apply lookup_insert_ne. }
  split; [|split; [|exact Hok]].
  - split.
    + intros (msg & w' & Hcreated) Hr.
      destruct (Hok Hr) as (l & w'' & st & Hcreated' & _). congruence.
    + intros Hr. eexists _, _.
      exact (create_refused uinput_create strerror default_mac_address
               device w Hr).
  - exact (create_refused uinput_create strerror default_mac_address device w).
Qed.

Lemma create_fails_iff_registration_fails_witness :
  create (kernel_refuses 13) sample_strerror [] sample_device (mkWorld ∅ [] [])
  = Some (Error "Permission denied"%string, mkWorld ∅ [] [])
  /\ exists l w' st,
      create (kernel_accepts 7%nat) sample_strerror [] sample_device
        (mkWorld ∅ [] []) = Some (Ok (session l), w')
      /\ heap w' !! l = Some st
      /\ joy st = Some 7%nat.
Proof.
  split.
  - refine (proj1 (proj2 (create_fails_iff_registration_fails
              (kernel_refuses 13) sample_strerror [] sample_device
              (mkWorld ∅ [] []))) _).
    discriminate.
  - destruct (proj2 (proj2 (create_fails_iff_registration_fails
                (kernel_accepts 7%nat) sample_strerror [] sample_device
                (mkWorld ∅ [] []))) eq_refl)
      as (l & w' & st & Hrun & _ & Hst & Hjoy & _).
    exists l, w', st. exact (conj Hrun (conj Hst Hjoy)).
Defined.

(** C7, as the code has it. The capability descriptor is a function
    of the device definition alone, and for every definition it declares
    the four stick axes with minimum -32768, maximum 32767, fuzz 16 and
    flat 128, and the two trigger axes with minimum 0 and maximum 255;
    the identity it declares is the definition's, on the USB bus. *)
Theorem capability_descriptor_calibration (device : DeviceDefinition) :
  let dev := ps_controller_dev device in
  (forall code, In code [ABS_X; ABS_Y; ABS_RX; ABS_RY] ->
     libevdev_has_event_code dev EV_ABS code = true
     /\ exists a, libevdev_get_abs_info dev code = Some a
         /\ minimum a = -32768 /\ maximum a = 32767
         /\ fuzz a = 16 /\ flat a = 128)
  /\ (forall code, In code [ABS_Z; ABS_RZ] ->
     libevdev_has_event_code dev EV_ABS code = true
     /\ exists a, libevdev_get_abs_info dev code = Some a
         /\ minimum a = 0 /\ maximum a = 255)
  /\ abs_info dev = abs_info (ps_controller_dev sample_device)
  /\ ev_codes dev = ev_codes (ps_controller_dev sample_device)
  /\ (dev_name dev, id_vendor dev, id_product dev, id_version dev, id_bustype dev)
     = (name device, vendor_id device, product_id device, version device, BUS_USB).
Proof.
  intros dev. subst dev. split; [|split; [|split; [|split]]].
  - intros code Hin. simpl in Hin.
    destruct Hin as [<-|[<-|[<-|[<-|[]]]]];
      (split; [vm_compute; reflexivity|]); eexists;
      (split; [vm_compute; reflexivity|]); repeat split.
  - intros code Hin. simpl in Hin.
    destruct Hin as [<-|[<-|[]]];
      (split; [vm_compute; reflexivity|]); eexists;
      (split; [vm_compute; reflexivity|]); repeat split.
  - vm_compute; reflexivity.
  - vm_compute; reflexivity.
  - vm_compute; reflexivity.
Qed.

(** C7, as the claim words it (flat 16, fuzz 128), fails on the left
    stick's horizontal axis of the sample device. *)
Lemma stick_calibration_flat_fuzz_swapped :
  ~ (exists a, libevdev_get_abs_info (ps_controller_dev sample_device) ABS_X = Some a
       /\ minimum a = -32768 /\ maximum a = 32767
       /\ flat a = 16 /\ fuzz a = 128).
Proof.
  intros (a & Ha & _ & _ & Hflat & _).
  vm_compute in Ha. injection Ha as <-. discriminate Hflat.
Qed.

(** C8, what the code does. After a successful [create] and any
    sequence of commands, none of which faults, the destructor sets the
    stop flag and returns: the listener started by [create] is detached
    and no [join] on it has been made, so destruction does not wait for
    the listener to exit; the state still holds the device handle. *)
Theorem destructor_after_create_joins_nothing `{btn : Joypad.CONTROLLER_BTN}
    (uinput_create : libevdev -> World -> Z * libevdev_uinput)
    (strerror : Z -> string) (default_mac_address : list Z)
    (device : DeviceDefinition) (w : World) (cs : list command) :
  fst (uinput_create (ps_controller_dev device) w) = 0 ->
  exists l w1 w2 w3 st,
    create uinput_create strerror default_mac_address device w
    = Some (Ok (session l), w1)
    /\ run_commands (session l) cs w1 = Some (tt, w2)
    /\ PS5Joypad_dtor (session l) w2 = Some (tt, w3)
    /\ heap w3 !! l = Some st
    /\ stop_listening_events st = true
    /\ joy st = Some (snd (uinput_create (ps_controller_dev device) w))
    /\ threads w3
       = threads w ++ [mk_thread event_listener (Some l) true false].
Proof.
  intros Hr.
  pose proof (create_accepted uinput_create strerror default_mac_address
                device w Hr) as Hcreate.
  cbv zeta in Hcreate.
  set (l := fresh (dom (heap w))) in *.
  set (uidev := snd (uinput_create (ps_controller_dev device) w)) in *.
  set (w1 := mkWorld _ _ _) in Hcreate.
  destruct (run_commands_preserves l cs w1 (set_joy (Some uidev) default_state))
    as (w2 & st2 & Hrun & Hst2 & (Hjoy & Hth & _) & Hthreads).
  { apply lookup_insert_eq. }
  exists l, w1, w2,
    (set_heap <[l := set_stop_listening_events true st2]> w2),
    (set_stop_listening_events true st2).
  split; [exact Hcreate|]. split; [exact Hrun|].
  split; [exact (dtor_not_joinable l st2 w2 Hst2 Hth)|].
  split; [apply lookup_insert_eq|].
  split; [reflexivity|]. split; [exact Hjoy|].
  cbn [set_heap threads]. by rewrite Hthreads.
Qed.

Lemma destructor_after_create_joins_nothing_witness :
  fst (kernel_accepts 7%nat (ps_controller_dev sample_device) (mkWorld ∅ [] [])) = 0
  /\ exists l w1 w2 w3,
      create (kernel_accepts 7%nat) sample_strerror [] sample_device
        (mkWorld ∅ [] []) = Some (Ok (session l), w1)
      /\ @run_commands moonlight_btn (session l)
           [SetPressedButtons 0x1001; SetStick Joypad.LS 1000 2000] w1
         = Some (tt, w2)
      /\ PS5Joypad_dtor (session l) w2 = Some (tt, w3)
      /\ threads w3 = [] ++ [mk_thread event_listener (Some l) true false].
Proof.
  split; [reflexivity|].
  destruct (@destructor_after_create_joins_nothing moonlight_btn
              (kernel_accepts 7%nat) sample_strerror [] sample_device
              (mkWorld ∅ [] [])
              [SetPressedButtons 0x1001; SetStick Joypad.LS 1000 2000] eq_refl)
    as (l & w1 & w2 & w3 & st & Hc & Hr & Hd & _ & _ & _ & Ht).
  exists l, w1, w2, w3. exact (conj Hc (conj Hr (conj Hd Ht))).
Defined.

(** C10. The constructor ignores [vendor_id] and [mac_address]: with
    any two choices of them it builds the same session in the same world,
    so whatever is run on the session afterwards runs the same way; the
    identity that [create] registers is the device definition's, and
    [create] does the same for every default of [mac_address]. *)
Theorem constructor_arguments_ignored `{btn : Joypad.CONTROLLER_BTN} :
  (forall vendor_id1 mac1 vendor_id2 mac2 w,
      PS5Joypad_ctor vendor_id1 mac1 w = PS5Joypad_ctor vendor_id2 mac2 w)
  /\ (forall vendor_id1 mac1 vendor_id2 mac2 cs w,
      (joypad ← PS5Joypad_ctor vendor_id1 mac1;
       run_commands joypad cs;; PS5Joypad_dtor joypad) w
      = (joypad ← PS5Joypad_ctor vendor_id2 mac2;
         run_commands joypad cs;; PS5Joypad_dtor joypad) w)
  /\ (forall uinput_create strerror mac1 mac2 device w,
      create uinput_create strerror mac1 device w
      = create uinput_create strerror mac2 device w)
  /\ (forall device,
      id_vendor (ps_controller_dev device) = vendor_id device
      /\ id_product (ps_controller_dev device) = product_id device
      /\ id_version (ps_controller_dev device) = version device
      /\ dev_name (ps_controller_dev device) = name device).
Proof.
  split; [reflexivity|]. split; [reflexivity|]. split; [reflexivity|].
  intros device. repeat split; vm_compute; reflexivity.
Qed.

(** * Beyond the claims *)

(** ** Commands and sequences of commands, in full *)

Section CommandFacts.

Context {btn : Joypad.CONTROLLER_BTN}.

Lemma command_state_same_device c st : same_device st (command_state c st).
Proof. by destruct c. Qed.

Lemma command_state_mask c st :
  currently_pressed_btns (command_state c st)
  = next_mask (currently_pressed_btns st) c.
Proof. by destruct c. Qed.

Lemma run_command_run (l : loc) (st : PS5JoypadState) (w : World) (c : command) :
  heap w !! l = Some st ->
  run_command (session l) c w
  = Some (tt, mkWorld (<[l := command_state c st]> (heap w)) (threads w)
                (written w ++
                 match joy st with
                 | Some h => command_events h (currently_pressed_btns st) c
                 | None => []
                 end)).
Proof.
  intros Hst.
  destruct c as [new|s x y|left right|cb]; cbn [run_command command_state command_events].
  - destruct (joy st) as [h|] eqn:Hjoy.
    + exact (set_pressed_buttons_live l st w Hst h new Hjoy).
    + rewrite (set_pressed_buttons_absent l st w Hst new Hjoy).
      unfold set_heap. by rewrite app_nil_r.
  - rewrite (insert_id _ _ _ Hst). destruct (joy st) as [h|] eqn:Hjoy.
    + by rewrite (set_stick_live l st w Hst h s x y Hjoy).
    + rewrite (set_stick_absent l st w Hst s x y Hjoy), app_nil_r. by destruct w.
  - rewrite (insert_id _ _ _ Hst). destruct (joy st) as [h|] eqn:Hjoy.
    + by rewrite (set_triggers_live l st w Hst h left right Hjoy).
    + rewrite (set_triggers_absent l st w Hst left right Hjoy), app_nil_r.
      by destruct w.
  - rewrite (set_on_rumble_run l st w Hst cb). unfold set_heap.
    by destruct (joy st); rewrite app_nil_r.
Qed.

Lemma run_commands_run (l : loc) (cs : list command) :
  forall (st : PS5JoypadState) (w : World),
    heap w !! l = Some st ->
    run_commands (session l) cs w
    = Some (tt, mkWorld (<[l := commands_state cs st]> (heap w)) (threads w)
                  (written w ++
                   match joy st with
                   | Some h => commands_events h (currently_pressed_btns st) cs
                   | None => []
                   end)).
Proof.
  induction cs as [|c cs IH]; intros st w Hst.
  - cbn [run_commands commands_state commands_events fold_left].
    rewrite (insert_id _ _ _ Hst). destruct w; cbn [heap threads written].
    by destruct (joy st); rewrite app_nil_r.
  - cbn [run_commands]. rewrite bind_run, (run_command_run l st w c Hst).
    rewrite (IH (command_state c st)) by apply lookup_insert_eq.
    cbn [heap threads written commands_state commands_events fold_left].
    rewrite insert_insert_eq, command_state_mask.
    destruct (command_state_same_device c st) as (-> & _ & _).
    destruct (joy st); by rewrite <- app_assoc.
Qed.

Lemma commands_state_same_device cs :
  forall st, same_device st (commands_state cs st).
Proof.
  induction cs as [|c cs IH]; intros st; [done|].
  cbn [commands_state fold_left].
  destruct (command_state_same_device c st) as (Hj & He & Hs).
  destruct (IH (command_state c st)) as (Hj' & He' & Hs').
  unfold same_device, commands_state in *. by rewrite Hj', He', Hs'.
Qed.

End CommandFacts.

(** ** The trace mirrors the stored mask *)

Lemma settle_app h type code v evs evs' :
  settle h type code v (evs ++ evs')
  = settle h type code (settle h type code v evs) evs'.
Proof. unfold settle. by rewrite fold_left_app. Qed.

Lemma settle_miss h type code v evs :
  (forall ev, In ev evs -> hits h type code ev = false) ->
  settle h type code v evs = v.
Proof.
  revert v. induction evs as [|e evs IH]; intros v Hmiss; [done|].
  cbn [settle fold_left]. rewrite (Hmiss e) by (by left).
  apply IH. intros ev Hev. apply Hmiss. by right.
Qed.

Lemma hits_true h type code ev :
  hits h type code ev = true <-> ev = mk_write h type code (w_value ev).
Proof.
  unfold hits. rewrite !andb_true_iff, !bool_decide_eq_true.
  destruct ev as [d t c v]; cbn [w_dev w_type w_code w_value]. split.
  - by intros [[-> ->] ->].
  - by intros [= -> -> ->].
Qed.

Lemma settle_unique h type code v evs ev :
  NoDup (map w_code evs) -> In ev evs -> hits h type code ev = true ->
  settle h type code v evs = w_value ev.
Proof.
  revert v. induction evs as [|e evs IH]; intros v Hnd Hin Hhit; [done|].
  cbn [map] in Hnd. apply NoDup_cons in Hnd as [Hnotin Hnd].
  cbn [settle fold_left]. destruct Hin as [->|Hin].
  - rewrite Hhit. apply settle_miss. intros ev' Hev'.
    destruct (hits h type code ev') eqn:Hhit'; [|done].
    destruct Hnotin. apply list_elem_of_In.
    apply hits_true in Hhit, Hhit'. rewrite Hhit, Hhit' in *.
    by apply (in_map w_code) in Hev'.
  - by apply IH.
Qed.

Lemma land_unchanged (flag old new : Z) :
  Z.land flag (Z.lxor new old) = 0 -> Z.land new flag = Z.land old flag.
Proof.
  intros H. apply Z.bits_inj'. intros n Hn.
  apply (f_equal (fun z => Z.testbit z n)) in H.
  rewrite Z.land_spec, Z.lxor_spec, Z.bits_0 in H. rewrite !Z.land_spec.
  destruct (Z.testbit flag n), (Z.testbit new n), (Z.testbit old n); done.
Qed.

Lemma land_lor_0 (a b x : Z) :
  Z.land (Z.lor a b) x = 0 -> Z.land a x = 0 /\ Z.land b x = 0.
Proof.
  intros H. split; apply Z.bits_inj'; intros n Hn;
    apply (f_equal (fun z => Z.testbit z n)) in H;
    rewrite Z.land_spec, Z.lor_spec, Z.bits_0 in H;
    rewrite Z.land_spec, Z.bits_0;
    destruct (Z.testbit a n), (Z.testbit b n), (Z.testbit x n); done.
Qed.

Section MirrorFacts.

Context {btn : Joypad.CONTROLLER_BTN}.

Lemma edge_events_codes_NoDup h old new :
  NoDup (map w_code (edge_events h old new)).
Proof.
  apply (sublist_NoDup _ _ edge_codes_NoDup).
  unfold edge_events. rewrite map_app.
  apply sublist_app; apply flat_map_codes_sublist.
  - intros e. unfold hat_edge. destruct (changed _ _ _); eauto.
  - intros e. unfold key_edge. destruct (changed _ _ _); eauto.
Qed.

Lemma key_value_unchanged flag old new :
  changed flag old new = false -> key_value flag new = key_value flag old.
Proof.
  intros Hch%truthy_false. unfold key_value.
  by rewrite (land_unchanged flag old new Hch).
Qed.

Lemma hat_value_unchanged neg pos old new :
  changed (Z.lor neg pos) old new = false ->
  hat_value neg pos new = hat_value neg pos old.
Proof.
  intros Hch%truthy_false. apply land_lor_0 in Hch as [Hneg Hpos].
  unfold hat_value.
  by rewrite (land_unchanged neg old new Hneg), (land_unchanged pos old new Hpos).
Qed.

Lemma settle_edge_key h old new flag code :
  In (flag, code) key_table ->
  settle h EV_KEY code (key_value flag old) (edge_events h old new)
  = key_value flag new.
Proof.
  intros Hin. destruct (changed flag old new) eqn:Hch.
  - apply (settle_unique h EV_KEY code _ _
             (mk_write h EV_KEY code (key_value flag new))).
    + apply edge_events_codes_NoDup.
    + by apply (key_event_iff h old new flag code _ Hin).
    + by apply hits_true.
  - rewrite (key_value_unchanged _ _ _ Hch). apply settle_miss.
    intros ev Hev. destruct (hits h EV_KEY code ev) eqn:Hhit; [|done].
    apply hits_true in Hhit. rewrite Hhit in Hev.
    apply (key_event_iff h old new flag code _ Hin) in Hev as [Hch' _].
    congruence.
Qed.

Lemma settle_edge_hat h old new neg pos code :
  In (neg, pos, code) hat_table ->
  settle h EV_ABS code (hat_value neg pos old) (edge_events h old new)
  = hat_value neg pos new.
Proof.
  intros Hin. destruct (changed (Z.lor neg pos) old new) eqn:Hch.
  - apply (settle_unique h EV_ABS code _ _
             (mk_write h EV_ABS code (hat_value neg pos new))).
    + apply edge_events_codes_NoDup.
    + by apply (hat_event_iff h old new neg pos code _ Hin).
    + by apply hits_true.
  - rewrite (hat_value_unchanged _ _ _ _ Hch). apply settle_miss.
    intros ev Hev. destruct (hits h EV_ABS code ev) eqn:Hhit; [|done].
    apply hits_true in Hhit. rewrite Hhit in Hev.
    apply (hat_event_iff h old new neg pos code _ Hin) in Hev as [Hch' _].
    congruence.
Qed.

Lemma mirrors_spec h evs mask :
  mirrors h evs mask = true <->
  (forall flag code, In (flag, code) key_table ->
     last_value h EV_KEY code evs = key_value flag mask)
  /\ (forall neg pos code, In (neg, pos, code) hat_table ->
     last_value h EV_ABS code evs = hat_value neg pos mask).
Proof.
  unfold mirrors. rewrite andb_true_iff, !forallb_forall. split.
  - intros [Hk Hh]. split.
    + intros flag code Hin. by apply Z.eqb_eq, (Hk (flag, code)).
    + intros neg pos code Hin. by apply Z.eqb_eq, (Hh (neg, pos, code)).
  - intros [Hk Hh]. split.
    + intros [flag code] Hin. by apply Z.eqb_eq, Hk.
    + intros [[neg pos] code] Hin. by apply Z.eqb_eq, Hh.
Qed.

Lemma hat_table_codes neg pos code :
  In (neg, pos, code) hat_table -> code = ABS_HAT0Y \/ code = ABS_HAT0X.
Proof. intros [[= _ _ <-]|[[= _ _ <-]|[]]]; auto. Qed.

(** What a command writes besides a mask update hits no key code and
    no directional axis. *)
Lemma command_events_miss h prev c type code :
  (type = EV_KEY \/ type = EV_ABS /\ (code = ABS_HAT0Y \/ code = ABS_HAT0X)) ->
  (forall m, c <> SetPressedButtons m) ->
  forall ev, In ev (command_events h prev c) -> hits h type code ev = false.
Proof.
  intros Hcode Hc ev Hev.
  destruct c as [m|s x y|left right|cb]; cbn [command_events] in Hev.
  - by destruct (Hc m).
  - unfold stick_events, syn_report in Hev.
    destruct s; cbn [app In] in Hev;
      destruct Hev as [<-|[<-|[<-|[]]]];
      destruct Hcode as [->|[-> [->| ->]]]; reflexivity.
  - unfold trigger_events, syn_report in Hev. cbn [In] in Hev.
    destruct Hev as [<-|[<-|[<-|[]]]];
      destruct Hcode as [->|[-> [->| ->]]]; reflexivity.
  - destruct Hev.
Qed.

Lemma mirrors_step h evs prev c :
  mirrors h evs prev = true ->
  mirrors h (evs ++ command_events h prev c) (next_mask prev c) = true.
Proof.
  rewrite !mirrors_spec. intros [Hk Hh].
  destruct c as [m|s x y|left right|cb] eqn:Hc.
  - cbn [command_events next_mask]. unfold frame, last_value in *.
    split.
    + intros flag code Hin. rewrite !settle_app, (Hk flag code Hin).
      by rewrite (settle_edge_key h prev m flag code Hin).
    + intros neg pos code Hin. rewrite !settle_app, (Hh neg pos code Hin).
      by rewrite (settle_edge_hat h prev m neg pos code Hin).
  - rewrite <- Hc. assert (forall m, c <> SetPressedButtons m) as Hne
      by (intros m; rewrite Hc; done).
    assert (next_mask prev c = prev) as -> by (by rewrite Hc).
    unfold last_value in *. split.
    + intros flag code Hin. rewrite settle_app, (Hk flag code Hin).
      apply settle_miss, (command_events_miss h prev c); auto.
    + intros neg pos code Hin. rewrite settle_app, (Hh neg pos code Hin).
      apply settle_miss, (command_events_miss h prev c); [|done].
      right. split; [done|]. by apply (hat_table_codes neg pos).
  - rewrite <- Hc. assert (forall m, c <> SetPressedButtons m) as Hne
      by (intros m; rewrite Hc; done).
    assert (next_mask prev c = prev) as -> by (by rewrite Hc).
    unfold last_value in *. split.
    + intros flag code Hin. rewrite settle_app, (Hk flag code Hin).
      apply settle_miss, (command_events_miss h prev c); auto.
    + intros neg pos code Hin. rewrite settle_app, (Hh neg pos code Hin).
      apply settle_miss, (command_events_miss h prev c); [|done].
      right. split; [done|]. by apply (hat_table_codes neg pos).
  - cbn [command_events next_mask]. by rewrite app_nil_r.
Qed.

Lemma mirrors_steps h cs :
  forall evs prev,
    mirrors h evs prev = true ->
    mirrors h (evs ++ commands_events h prev cs)
      (fold_left next_mask cs prev) = true.
Proof.
  induction cs as [|c cs IH]; intros evs prev Hm.
  - cbn [commands_events fold_left]. by rewrite app_nil_r.
  - cbn [commands_events fold_left]. rewrite app_assoc.
    by apply IH, mirrors_step.
Qed.

Lemma commands_state_mask cs :
  forall st, currently_pressed_btns (commands_state cs st)
             = fold_left next_mask cs (currently_pressed_btns st).
Proof.
  induction cs as [|c cs IH]; intros st; [done|].
  cbn [commands_state fold_left]. fold (commands_state cs (command_state c st)).
  by rewrite IH, command_state_mask.
Qed.

End MirrorFacts.

Lemma mirrors_untouched `{btn : Joypad.CONTROLLER_BTN} h evs :
  (forall ev, In ev evs -> w_dev ev <> h) -> mirrors h evs 0 = true.
Proof.
  intros Hfresh. apply mirrors_spec.
  assert (forall type code, last_value h type code evs = 0) as Hz.
  { intros type code. apply settle_miss. intros ev Hev.
    destruct (hits h type code ev) eqn:Hhit; [|done].
    apply hits_true in Hhit. destruct (Hfresh ev Hev). by rewrite Hhit. }
  split; intros; by rewrite Hz.
Qed.

Lemma run_commands_mirrors `{btn : Joypad.CONTROLLER_BTN}
    (l : loc) (st : PS5JoypadState) (h : libevdev_uinput) (w : World)
    (cs : list command) :
  heap w !! l = Some st ->
  joy st = Some h ->
  mirrors h (written w) (currently_pressed_btns st) = true ->
  exists w',
    run_commands (session l) cs w = Some (tt, w')
    /\ heap w' !! l = Some (commands_state cs st)
    /\ mirrors h (written w') (fold_left next_mask cs (currently_pressed_btns st))
       = true.
Proof.
  intros Hst Hjoy Hm. eexists.
  split; [exact (run_commands_run l cs st w Hst)|].
  split; [apply lookup_insert_eq|].
  cbn [written]. rewrite Hjoy. by apply mirrors_steps.
Qed.

(** X1. On a live session whose trace agrees with the stored mask,
    every sequence of commands runs through and leaves a trace that agrees
    with the mask then stored: the value last written on each button's key
    code is 1 or 0 as the flag meets the mask, the value last written on
    each directional axis is the one the mask calls for. Writing only the
    flags that changed loses nothing. *)
Theorem trace_mirrors_mask `{btn : Joypad.CONTROLLER_BTN}
    (l : loc) (st : PS5JoypadState) (h : libevdev_uinput) (w : World)
    (cs : list command) :
  heap w !! l = Some st ->
  joy st = Some h ->
  mirrors h (written w) (currently_pressed_btns st) = true ->
  exists w' st',
    run_commands (session l) cs w = Some (tt, w')
    /\ heap w' !! l = Some st'
    /\ mirrors h (written w') (currently_pressed_btns st') = true
    /\ (forall flag code, In (flag, code) (@key_table btn) ->
          last_value h EV_KEY code (written w')
          = if truthy (Z.land (currently_pressed_btns st') flag) then 1 else 0)
    /\ (forall neg pos code, In (neg, pos, code) (@hat_table btn) ->
          last_value h EV_ABS code (written w')
          = if truthy (Z.land (currently_pressed_btns st') neg) then -1
            else if truthy (Z.land (currently_pressed_btns st') pos) then 1
                 else 0).
Proof.
  intros Hst Hjoy Hm.
  destruct (run_commands_mirrors l st h w cs Hst Hjoy Hm) as (w' & Hrun & Hst' & Hm').
  exists w', (commands_state cs st). rewrite commands_state_mask.
  split; [exact Hrun|]. split; [exact Hst'|]. split; [exact Hm'|].
  by apply mirrors_spec in Hm' as [Hk Hh].
Qed.

Lemma trace_mirrors_mask_witness :
  heap (sample_world (sample_state 7%nat)) !! 1%positive
  = Some (sample_state 7%nat)
  /\ joy (sample_state 7%nat) = Some 7%nat
  /\ @mirrors moonlight_btn 7%nat [] 0 = true
  /\ exists w' st',
      @run_commands moonlight_btn (session 1%positive)
        [SetPressedButtons 0x1001; SetStick Joypad.LS 5 6; SetPressedButtons 0x2000]
        (sample_world (sample_state 7%nat)) = Some (tt, w')
      /\ heap w' !! 1%positive = Some st'
      /\ @mirrors moonlight_btn 7%nat (written w') (currently_pressed_btns st') = true.
Proof.
  split; [reflexivity|]. split; [reflexivity|]. split; [reflexivity|].
  destruct (@trace_mirrors_mask moonlight_btn 1%positive (sample_state 7%nat)
              7%nat (sample_world (sample_state 7%nat))
              [SetPressedButtons 0x1001; SetStick Joypad.LS 5 6;
               SetPressedButtons 0x2000] eq_refl eq_refl eq_refl)
    as (w' & st' & Hrun & Hst & Hm & _).
  exists w', st'. exact (conj Hrun (conj Hst Hm)).
Defined.

(** X2. A session that [create] returns on a handle never written
    before starts out in agreement, so after any commands on it the value
    last written on each button's key code tells whether the flag is in the
    last mask passed to [set_pressed_buttons] (in none, if there was no such
    call). *)
Theorem created_session_mirrors_mask `{btn : Joypad.CONTROLLER_BTN}
    (uinput_create : libevdev -> World -> Z * libevdev_uinput)
    (strerror : Z -> string) (default_mac_address : list Z)
    (device : DeviceDefinition) (w : World) (cs : list command) :
  let r := uinput_create (ps_controller_dev device) w in
  fst r = 0 ->
  (forall ev, In ev (written w) -> w_dev ev <> snd r) ->
  exists l w1 w2,
    create uinput_create strerror default_mac_address device w
    = Some (Ok (session l), w1)
    /\ run_commands (session l) cs w1 = Some (tt, w2)
    /\ forall flag code, In (flag, code) (@key_table btn) ->
         last_value (snd r) EV_KEY code (written w2)
         = if truthy (Z.land (fold_left next_mask cs 0) flag) then 1 else 0.
Proof.
  intros r Hr Hfresh.
  pose proof (create_accepted uinput_create strerror default_mac_address
                device w Hr) as Hcreate.
  cbv zeta in Hcreate. fold r in Hcreate.
  set (l := fresh (dom (heap w))) in *.
  set (st1 := set_joy (Some (snd r)) default_state) in *.
  set (w1 := mkWorld _ _ _) in Hcreate.
  destruct (run_commands_mirrors l st1 (snd r) w1 cs)
    as (w2 & Hrun & _ & Hm).
  - apply lookup_insert_eq.
  - reflexivity.
  - by apply mirrors_untouched.
  - exists l, w1, w2. split; [exact Hcreate|]. split; [exact Hrun|].
    by apply mirrors_spec in Hm as [Hk _].
Qed.

Lemma created_session_mirrors_mask_witness :
  fst (kernel_accepts 7%nat (ps_controller_dev sample_device) (mkWorld ∅ [] [])) = 0
  /\ (forall ev, In ev (written (mkWorld ∅ [] [])) ->
        w_dev ev <> snd (kernel_accepts 7%nat (ps_controller_dev sample_device)
                           (mkWorld ∅ [] [])))
  /\ exists l w1 w2,
      create (kernel_accepts 7%nat) sample_strerror [] sample_device
        (mkWorld ∅ [] []) = Some (Ok (session l), w1)
      /\ @run_commands moonlight_btn (session l)
           [SetPressedButtons 0x1001; SetPressedButtons 0x2000] w1
         = Some (tt, w2).
Proof.
  assert (forall ev, In ev (written (mkWorld ∅ [] [])) ->
            w_dev ev <> snd (kernel_accepts 7%nat
                               (ps_controller_dev sample_device)
                               (mkWorld ∅ [] []))) as Hfresh
    by (intros ev []).
  split; [reflexivity|]. split; [exact Hfresh|].
  destruct (@created_session_mirrors_mask moonlight_btn
              (kernel_accepts 7%nat) sample_strerror [] sample_device
              (mkWorld ∅ [] [])
              [SetPressedButtons 0x1001; SetPressedButtons 0x2000]
              eq_refl Hfresh)
    as (l & w1 & w2 & Hc & Hr & _).
  exists l, w1, w2. exact (conj Hc Hr).
Defined.

(** ** Sticks and triggers on the trace *)

Lemma hits_same h type code v : hits h type code (mk_write h type code v) = true.
Proof. by apply hits_true. Qed.

Lemma hits_other h type code ev :
  (w_dev ev, w_type ev, w_code ev) <> (h, type, code) ->
  hits h type code ev = false.
Proof.
  intros Hne. destruct (hits h type code ev) eqn:Hhit; [|done].
  apply hits_true in Hhit. destruct Hne. by rewrite Hhit.
Qed.

Lemma last_value_app h type code evs evs' :
  last_value h type code (evs ++ evs')
  = settle h type code (last_value h type code evs) evs'.
Proof. apply settle_app. Qed.

(** X3. On a live handle [set_stick] changes nothing but the trace,
    and on the trace nothing but the two axes of the stick named (and the
    report): the value last written on its horizontal axis is x, on its
    vertical axis -y, and the value last written on any other axis or key,
    the other stick's among them, is what it was. *)
Theorem set_stick_touches_only_its_axes
    (l : loc) (st : PS5JoypadState) (h : libevdev_uinput) (w : World)
    (stick_type : Joypad.STICK_POSITION) (x y : Z) :
  heap w !! l = Some st ->
  joy st = Some h ->
  let ax := match stick_type with Joypad.LS => ABS_X | Joypad.RS => ABS_RX end in
  let ay := match stick_type with Joypad.LS => ABS_Y | Joypad.RS => ABS_RY end in
  exists w',
    set_stick (session l) stick_type x y w = Some (tt, w')
    /\ heap w' = heap w
    /\ threads w' = threads w
    /\ last_value h EV_ABS ax (written w') = x
    /\ last_value h EV_ABS ay (written w') = - y
    /\ forall h' type code,
         type <> EV_SYN ->
         (h', type, code) <> (h, EV_ABS, ax) ->
         (h', type, code) <> (h, EV_ABS, ay) ->
         last_value h' type code (written w')
         = last_value h' type code (written w).
Proof.
  intros Hst Hjoy ax ay. eexists.
  split; [exact (set_stick_live l st w Hst h stick_type x y Hjoy)|].
  split; [reflexivity|]. split; [reflexivity|].
  cbn [set_written written]. rewrite !last_value_app.
  split; [|split].
  - subst ax; destruct stick_type; cbn [stick_events app settle fold_left];
      rewrite hits_same; reflexivity.
  - subst ay; destruct stick_type; cbn [stick_events app settle fold_left];
      rewrite hits_same; reflexivity.
  - intros h' type code Hsyn Hx Hy. intros. rewrite last_value_app.
    apply settle_miss. intros ev Hev. apply hits_other.
    subst ax ay; destruct stick_type; cbn [stick_events app In] in Hev;
      destruct Hev as [<-|[<-|[<-|[]]]]; cbn [w_dev w_type w_code syn_report];
      congruence.
Qed.

Lemma set_stick_touches_only_its_axes_witness :
  heap (sample_world (sample_state 7%nat)) !! 1%positive
  = Some (sample_state 7%nat)
  /\ joy (sample_state 7%nat) = Some 7%nat
  /\ exists w',
      set_stick (session 1%positive) Joypad.RS 1000 2000
        (sample_world (sample_state 7%nat)) = Some (tt, w')
      /\ last_value 7%nat EV_ABS ABS_RY (written w') = - 2000.
Proof.
  split; [reflexivity|]. split; [reflexivity|].
  destruct (set_stick_touches_only_its_axes 1%positive (sample_state 7%nat)
              7%nat (sample_world (sample_state 7%nat)) Joypad.RS 1000 2000
              eq_refl eq_refl)
    as (w' & Hrun & _ & _ & _ & Hy & _).
  exists w'. exact (conj Hrun Hy).
Defined.

(** X4. On a live handle [set_triggers] changes nothing but the
    trace, and on the trace nothing but the two trigger axes (and the
    report): the value last written on ABS_Z is the left pressure, on
    ABS_RZ the right one, whatever their sign or size, and the value last
    written on any other axis or key is what it was. *)
Theorem set_triggers_touches_only_its_axes
    (l : loc) (st : PS5JoypadState) (h : libevdev_uinput) (w : World)
    (left right : Z) :
  heap w !! l = Some st ->
  joy st = Some h ->
  exists w',
    set_triggers (session l) left right w = Some (tt, w')
    /\ heap w' = heap w
    /\ threads w' = threads w
    /\ last_value h EV_ABS ABS_Z (written w') = left
    /\ last_value h EV_ABS ABS_RZ (written w') = right
    /\ forall h' type code,
         type <> EV_SYN ->
         (h', type, code) <> (h, EV_ABS, ABS_Z) ->
         (h', type, code) <> (h, EV_ABS, ABS_RZ) ->
         last_value h' type code (written w')
         = last_value h' type code (written w).
Proof.
  intros Hst Hjoy. eexists.
  split; [exact (set_triggers_live l st w Hst h left right Hjoy)|].
  split; [reflexivity|]. split; [reflexivity|].
  cbn [set_written written]. rewrite !last_value_app.
  split; [|split].
  - cbn [trigger_events settle fold_left]. rewrite hits_same; reflexivity.
  - cbn [trigger_events settle fold_left]. rewrite hits_same; reflexivity.
  - intros h' type code Hsyn Hz Hrz. rewrite last_value_app.
    apply settle_miss. intros ev Hev. apply hits_other.
    cbn [trigger_events In] in Hev.
    destruct Hev as [<-|[<-|[<-|[]]]]; cbn [w_dev w_type w_code syn_report];
      congruence.
Qed.

Lemma set_triggers_touches_only_its_axes_witness :
  heap (sample_world (sample_state 7%nat)) !! 1%positive
  = Some (sample_state 7%nat)
  /\ joy (sample_state 7%nat) = Some 7%nat
  /\ exists w',
      set_triggers (session 1%positive) 125 255
        (sample_world (sample_state 7%nat)) = Some (tt, w')
      /\ last_value 7%nat EV_ABS ABS_Z (written w') = 125.
Proof.
  split; [reflexivity|]. split; [reflexivity|].
  destruct (set_triggers_touches_only_its_axes 1%positive (sample_state 7%nat)
              7%nat (sample_world (sample_state 7%nat)) 125 255
              eq_refl eq_refl)
    as (w' & Hrun & _ & _ & Hz & _).
  exists w'. exact (conj Hrun Hz).
Defined.

(** ** What is written against what is declared *)

Lemma abs_info_declared device code :
  libevdev_get_abs_info (ps_controller_dev device) code
  = match code with
    | ABS_HAT0Y | ABS_HAT0X => Some (mk_absinfo 0 (-1) 1 0 0 0)
    | ABS_X | ABS_RX | ABS_Y | ABS_RY => Some (mk_absinfo 0 (-32768) 32767 16 128 0)
    | ABS_Z | ABS_RZ => Some (mk_absinfo 0 0 255 0 0 0)
    | _ => None
    end.
Proof. destruct code; vm_compute; reflexivity. Qed.

Lemma codes_declared device :
  ev_codes (ps_controller_dev device) = ev_codes (ps_controller_dev sample_device).
Proof. vm_compute; reflexivity. Qed.

Section WrittenFacts.

Context {btn : Joypad.CONTROLLER_BTN}.

Lemma key_value_range flag m : key_value flag m = 0 \/ key_value flag m = 1.
Proof. unfold key_value. destruct (truthy (Z.land m flag)); auto. Qed.

Lemma hat_value_range neg pos m : -1 <= hat_value neg pos m <= 1.
Proof.
  unfold hat_value.
  destruct (truthy (Z.land m neg)), (truthy (Z.land m pos)); lia.
Qed.

Lemma command_events_codes h prev c ev :
  In ev (command_events h prev c) ->
  w_dev ev = h /\ In (w_type ev, w_code ev) written_codes.
Proof.
  intros Hev. destruct c as [m|s x y|left right|cb]; cbn [command_events] in Hev.
  - unfold frame in Hev. apply in_app_or in Hev as [Hev|[<-|[]]].
    + apply in_edge_events in Hev
        as [(neg & pos & code & Hin & _ & ->)|(flag & code & Hin & _ & ->)];
        (split; [done|]); cbn [w_type w_code].
      * apply hat_table_codes in Hin as [-> | ->]; unfold written_codes;
          cbn [In]; tauto.
      * apply (in_map snd) in Hin. cbn [map key_table snd In] in Hin.
        unfold written_codes; cbn [In].
        repeat (destruct Hin as [<-|Hin]; [tauto|]). destruct Hin.
    + split; [done|]. by left.
  - unfold stick_events, syn_report in Hev.
    destruct s; cbn [app In] in Hev; destruct Hev as [<-|[<-|[<-|[]]]];
      (split; [done|]); unfold written_codes; cbn [In w_type w_code]; tauto.
  - unfold trigger_events, syn_report in Hev. cbn [In] in Hev.
    destruct Hev as [<-|[<-|[<-|[]]]];
      (split; [done|]); unfold written_codes; cbn [In w_type w_code]; tauto.
  - destruct Hev.
Qed.

Lemma commands_events_Forall h (P : uinput_write -> Prop) :
  (forall prev c ev, In ev (command_events h prev c) -> P ev) ->
  forall cs prev, Forall P (commands_events h prev cs).
Proof.
  intros HP. induction cs as [|c cs IH]; intros prev; [constructor|].
  cbn [commands_events]. apply Forall_app. split; [|apply IH].
  apply List.Forall_forall. apply HP.
Qed.

Lemma written_codes_declared device h type code v :
  In (type, code) written_codes ->
  declared (ps_controller_dev device) (mk_write h type code v) = true.
Proof.
  intros Hin. unfold declared, libevdev_has_event_code. cbn [w_type w_code].
  rewrite codes_declared. unfold written_codes in Hin. cbn [In] in Hin.
  repeat (destruct Hin as [[= <- <-]|Hin]; [vm_compute; reflexivity|]).
  destruct Hin.
Qed.

End WrittenFacts.

(** X5. Whatever the device definition, every event that a sequence of
    commands writes on a live session goes to the session's own handle and
    has a type and code that the capability descriptor built by
    [create_ps_controller] enables (or is the SYN_REPORT). *)
Theorem every_write_is_declared `{btn : Joypad.CONTROLLER_BTN}
    (device : DeviceDefinition)
    (l : loc) (st : PS5JoypadState) (h : libevdev_uinput) (w : World)
    (cs : list command) :
  heap w !! l = Some st ->
  joy st = Some h ->
  exists w' evs,
    run_commands (session l) cs w = Some (tt, w')
    /\ written w' = written w ++ evs
    /\ Forall (fun ev => w_dev ev = h
                         /\ declared (ps_controller_dev device) ev = true) evs.
Proof.
  intros Hst Hjoy. eexists _, _.
  split; [exact (run_commands_run l cs st w Hst)|].
  rewrite Hjoy. split; [reflexivity|].
  apply commands_events_Forall. intros prev c ev Hev.
  apply command_events_codes in Hev as [Hdev Hin]. split; [done|].
  destruct ev as [d t c' v]. by apply written_codes_declared.
Qed.

Lemma every_write_is_declared_witness :
  heap (sample_world (sample_state 7%nat)) !! 1%positive
  = Some (sample_state 7%nat)
  /\ joy (sample_state 7%nat) = Some 7%nat
  /\ exists w' evs,
      @run_commands moonlight_btn (session 1%positive)
        [SetPressedButtons 0x1001; SetTriggers 3 4]
        (sample_world (sample_state 7%nat)) = Some (tt, w')
      /\ written w' = [] ++ evs.
Proof.
  split; [reflexivity|]. split; [reflexivity|].
  destruct (@every_write_is_declared moonlight_btn sample_device 1%positive
              (sample_state 7%nat) 7%nat (sample_world (sample_state 7%nat))
              [SetPressedButtons 0x1001; SetTriggers 3 4] eq_refl eq_refl)
    as (w' & evs & Hrun & Hw & _).
  exists w', evs. exact (conj Hrun Hw).
Defined.

(** X6. The descriptor enables the digital trigger buttons BTN_TL2 and
    BTN_TR2 and six force-feedback codes, yet no sequence of commands ever
    writes an event with one of them: trigger pressure only goes out on the
    axes ABS_Z and ABS_RZ. *)
Theorem trigger_buttons_declared_never_written `{btn : Joypad.CONTROLLER_BTN}
    (device : DeviceDefinition)
    (l : loc) (st : PS5JoypadState) (h : libevdev_uinput) (w : World)
    (cs : list command) :
  heap w !! l = Some st ->
  joy st = Some h ->
  (forall code, In code [BTN_TL2; BTN_TR2] ->
     libevdev_has_event_code (ps_controller_dev device) EV_KEY code = true)
  /\ (forall code, In code [FF_RUMBLE; FF_CONSTANT; FF_PERIODIC; FF_SINE;
                            FF_RAMP; FF_GAIN] ->
     libevdev_has_event_code (ps_controller_dev device) EV_FF code = true)
  /\ exists w' evs,
      run_commands (session l) cs w = Some (tt, w')
      /\ written w' = written w ++ evs
      /\ Forall (fun ev => w_type ev <> EV_FF
                           /\ w_code ev <> BTN_TL2 /\ w_code ev <> BTN_TR2) evs.
Proof.
  intros Hst Hjoy. unfold libevdev_has_event_code. rewrite codes_declared.
  split; [|split].
  - intros code Hin. cbn [In] in Hin.
    repeat (destruct Hin as [<-|Hin]; [vm_compute; reflexivity|]). destruct Hin.
  - intros code Hin. cbn [In] in Hin.
    repeat (destruct Hin as [<-|Hin]; [vm_compute; reflexivity|]). destruct Hin.
  - eexists _, _.
    split; [exact (run_commands_run l cs st w Hst)|].
    rewrite Hjoy. split; [reflexivity|].
    apply commands_events_Forall. intros prev c ev Hev.
    apply command_events_codes in Hev as [_ Hin].
    unfold written_codes in Hin. cbn [In] in Hin.
    repeat (destruct Hin as [[= <- <-]|Hin]; [done|]). destruct Hin.
Qed.

Lemma trigger_buttons_declared_never_written_witness :
  heap (sample_world (sample_state 7%nat)) !! 1%positive
  = Some (sample_state 7%nat)
  /\ joy (sample_state 7%nat) = Some 7%nat
  /\ libevdev_has_event_code (ps_controller_dev sample_device) EV_KEY BTN_TL2
     = true.
Proof.
  split; [reflexivity|]. split; [reflexivity|].
  refine (proj1 (@trigger_buttons_declared_never_written moonlight_btn
            sample_device 1%positive (sample_state 7%nat) 7%nat
            (sample_world (sample_state 7%nat)) [SetTriggers 255 255]
            eq_refl eq_refl) BTN_TL2 _).
  left; reflexivity.
Defined.

(** X7. For every pair of masks, every value that [set_pressed_buttons]
    writes lies in the range the descriptor declares for its code: 0 or 1
    on a key, between the declared minimum -1 and maximum 1 on a
    directional axis. *)
Theorem set_pressed_buttons_values_in_range `{btn : Joypad.CONTROLLER_BTN}
    (device : DeviceDefinition)
    (l : loc) (st : PS5JoypadState) (h : libevdev_uinput) (w : World)
    (new : Z) :
  heap w !! l = Some st ->
  joy st = Some h ->
  exists w' evs,
    set_pressed_buttons (session l) new w = Some (tt, w')
    /\ written w' = written w ++ evs
    /\ forallb (in_declared_range (ps_controller_dev device)) evs = true.
Proof.
  intros Hst Hjoy. eexists _, _.
  split; [exact (set_pressed_buttons_live l st w Hst h new Hjoy)|].
  split; [reflexivity|].
  apply forallb_forall. intros ev Hev. unfold frame in Hev.
  apply in_app_or in Hev as [Hev|[<-|[]]]; [|reflexivity].
  apply in_edge_events in Hev
    as [(neg & pos & code & Hin & _ & ->)|(flag & code & Hin & _ & ->)];
    unfold in_declared_range; cbn [w_type w_code w_value].
  - rewrite abs_info_declared.
    pose proof (hat_value_range neg pos new).
    apply hat_table_codes in Hin as [-> | ->]; cbn [minimum maximum];
      apply andb_true_iff; split; apply Z.leb_le; lia.
  - destruct (key_value_range flag new) as [-> | ->]; reflexivity.
Qed.

Lemma set_pressed_buttons_values_in_range_witness :
  heap (sample_world (sample_state 7%nat)) !! 1%positive
  = Some (sample_state 7%nat)
  /\ joy (sample_state 7%nat) = Some 7%nat
  /\ exists w' evs,
      @set_pressed_buttons moonlight_btn (session 1%positive) 0xFFFF
        (sample_world (sample_state 7%nat)) = Some (tt, w')
      /\ written w' = [] ++ evs
      /\ forallb (in_declared_range (ps_controller_dev sample_device)) evs = true.
Proof.
  split; [reflexivity|]. split; [reflexivity|].
  exact (@set_pressed_buttons_values_in_range moonlight_btn sample_device
           1%positive (sample_state 7%nat) 7%nat
           (sample_world (sample_state 7%nat)) 0xFFFF eq_refl eq_refl).
Defined.

(** X8. For a signed 16-bit pair (x, y), the values that [set_stick]
    writes lie in the range declared for the stick axes, -32768 to 32767,
    exactly when y is not -32768: for that y the vertical axis is written
    as 32768, one above the declared maximum. *)
Theorem set_stick_values_in_range_iff
    (device : DeviceDefinition)
    (l : loc) (st : PS5JoypadState) (h : libevdev_uinput) (w : World)
    (stick_type : Joypad.STICK_POSITION) (x y : Z) :
  heap w !! l = Some st ->
  joy st = Some h ->
  is_int16 x -> is_int16 y ->
  exists w' evs,
    set_stick (session l) stick_type x y w = Some (tt, w')
    /\ written w' = written w ++ evs
    /\ (forallb (in_declared_range (ps_controller_dev device)) evs = true
        <-> y <> -32768)
    /\ (y = -32768 ->
        In (mk_write h EV_ABS
              match stick_type with Joypad.LS => ABS_Y | Joypad.RS => ABS_RY end
              32768) evs).
Proof.
  intros Hst Hjoy Hx Hy. unfold is_int16 in *. eexists _, _.
  split; [exact (set_stick_live l st w Hst h stick_type x y Hjoy)|].
  split; [reflexivity|]. split.
  - destruct stick_type; cbn [stick_events app forallb];
      unfold in_declared_range; cbn [w_type w_code w_value syn_report];
      rewrite !abs_info_declared; cbn [minimum maximum];
      rewrite andb_true_r, !andb_true_iff, !Z.leb_le; lia.
  - intros ->. destruct stick_type; cbn [stick_events app In]; tauto.
Qed.

Lemma set_stick_values_in_range_iff_witness :
  heap (sample_world (sample_state 7%nat)) !! 1%positive
  = Some (sample_state 7%nat)
  /\ joy (sample_state 7%nat) = Some 7%nat
  /\ is_int16 (-16384) /\ is_int16 (-32768)
  /\ exists w' evs,
      set_stick (session 1%positive) Joypad.RS (-16384) (-32768)
        (sample_world (sample_state 7%nat)) = Some (tt, w')
      /\ written w' = [] ++ evs
      /\ In (mk_write 7%nat EV_ABS ABS_RY 32768) evs.
Proof.
  assert (is_int16 (-16384)) as Hx by (unfold is_int16; lia).
  assert (is_int16 (-32768)) as Hy by (unfold is_int16; lia).
  split; [reflexivity|]. split; [reflexivity|].
  split; [exact Hx|]. split; [exact Hy|].
  destruct (set_stick_values_in_range_iff sample_device 1%positive
              (sample_state 7%nat) 7%nat (sample_world (sample_state 7%nat))
              Joypad.RS (-16384) (-32768) eq_refl eq_refl Hx Hy)
    as (w' & evs & Hrun & Hw & _ & Hin).
  exists w', evs. exact (conj Hrun (conj Hw (Hin eq_refl))).
Defined.

(** X9. [set_triggers] does not clamp: the values it writes lie in the
    range declared for the trigger axes, 0 to 255, exactly when both
    pressures passed do. *)
Theorem set_triggers_values_in_range_iff
    (device : DeviceDefinition)
    (l : loc) (st : PS5JoypadState) (h : libevdev_uinput) (w : World)
    (left right : Z) :
  heap w !! l = Some st ->
  joy st = Some h ->
  exists w' evs,
    set_triggers (session l) left right w = Some (tt, w')
    /\ written w' = written w ++ evs
    /\ (forallb (in_declared_range (ps_controller_dev device)) evs = true
        <-> 0 <= left <= 255 /\ 0 <= right <= 255).
Proof.
  intros Hst Hjoy. eexists _, _.
  split; [exact (set_triggers_live l st w Hst h left right Hjoy)|].
  split; [reflexivity|].
  cbn [trigger_events forallb]. unfold in_declared_range.
  cbn [w_type w_code w_value syn_report].
  rewrite !abs_info_declared. cbn [minimum maximum].
  rewrite andb_true_r, !andb_true_iff, !Z.leb_le. lia.
Qed.

Lemma set_triggers_values_in_range_iff_witness :
  heap (sample_world (sample_state 7%nat)) !! 1%positive
  = Some (sample_state 7%nat)
  /\ joy (sample_state 7%nat) = Some 7%nat
  /\ exists w' evs,
      set_triggers (session 1%positive) 256 (-1)
        (sample_world (sample_state 7%nat)) = Some (tt, w')
      /\ written w' = [] ++ evs
      /\ forallb (in_declared_range (ps_controller_dev sample_device)) evs
         <> true.
Proof.
  split; [reflexivity|]. split; [reflexivity|].
  destruct (set_triggers_values_in_range_iff sample_device 1%positive
              (sample_state 7%nat) 7%nat (sample_world (sample_state 7%nat))
              256 (-1) eq_refl eq_refl)
    as (w' & evs & Hrun & Hw & Hiff).
  exists w', evs. split; [exact Hrun|]. split; [exact Hw|].
  intros Hall. apply Hiff in Hall. lia.
Defined.

(** ** Bits that no flag meets *)

Lemma flat_map_nil {E T} (f : E -> list T) (tbl : list E) :
  (forall e, In e tbl -> f e = []) -> flat_map f tbl = [].
Proof.
  induction tbl as [|e tbl IH]; intros Hf; [done|].
  cbn [flat_map]. rewrite (Hf e) by (by left).
  apply IH. intros e' He'. apply Hf. by right.
Qed.

(** X10. When the new mask differs from the stored one only in bits
    that none of the profile's flags meets, [set_pressed_buttons] on a live
    handle writes the SYN_REPORT alone, and stores the new mask all the
    same. *)
Theorem unmapped_bits_write_only_report `{btn : Joypad.CONTROLLER_BTN}
    (l : loc) (st : PS5JoypadState) (h : libevdev_uinput) (w : World)
    (new : Z) :
  heap w !! l = Some st ->
  joy st = Some h ->
  forallb (fun e : Z * ev_code =>
             negb (changed (fst e) (currently_pressed_btns st) new))
          key_table = true ->
  forallb (fun e : Z * Z * ev_code =>
             negb (changed (Z.lor (fst (fst e)) (snd (fst e)))
                     (currently_pressed_btns st) new))
          hat_table = true ->
  set_pressed_buttons (session l) new w
  = Some (tt, mkWorld (<[l := set_currently_pressed_btns new st]> (heap w))
                (threads w) (written w ++ [syn_report h])).
Proof.
  intros Hst Hjoy Hkeys Hhats.
  rewrite (set_pressed_buttons_live l st w Hst h new Hjoy).
  unfold frame, edge_events.
  rewrite !flat_map_nil; [done| |].
  - intros e He. unfold key_edge.
    by rewrite (proj1 (negb_true_iff _) (proj1 (forallb_forall _ _) Hkeys e He)).
  - intros e He. unfold hat_edge.
    by rewrite (proj1 (negb_true_iff _) (proj1 (forallb_forall _ _) Hhats e He)).
Qed.

Lemma unmapped_bits_write_only_report_witness :
  heap (sample_world (sample_state 7%nat)) !! 1%positive
  = Some (sample_state 7%nat)
  /\ joy (sample_state 7%nat) = Some 7%nat
  /\ @set_pressed_buttons moonlight_btn (session 1%positive) 0x200800
       (sample_world (sample_state 7%nat))
     = Some (tt, mkWorld
                   (<[1%positive := set_currently_pressed_btns 0x200800
                                      (sample_state 7%nat)]>
                      (heap (sample_world (sample_state 7%nat))))
                   [] ([] ++ [syn_report 7%nat])).
Proof.
  split; [reflexivity|]. split; [reflexivity|].
  exact (@unmapped_bits_write_only_report moonlight_btn 1%positive
           (sample_state 7%nat) 7%nat (sample_world (sample_state 7%nat))
           0x200800 eq_refl eq_refl eq_refl eq_refl).
Defined.

(** ** Frames are closed *)

Lemma on_device_app h evs evs' :
  on_device h (evs ++ evs') = on_device h evs ++ on_device h evs'.
Proof. apply List.filter_app. Qed.

Lemma on_device_all h evs :
  (forall ev, In ev evs -> w_dev ev = h) -> on_device h evs = evs.
Proof.
  induction evs as [|e evs IH]; intros Hall; [done|].
  cbn [on_device List.filter]. rewrite bool_decide_eq_true_2 by (apply Hall; by left).
  f_equal. apply IH. intros ev Hev. apply Hall. by right.
Qed.

Lemma on_device_none h evs :
  (forall ev, In ev evs -> w_dev ev <> h) -> on_device h evs = [].
Proof.
  induction evs as [|e evs IH]; intros Hall; [done|].
  cbn [on_device List.filter]. rewrite bool_decide_eq_false_2 by (apply Hall; by left).
  apply IH. intros ev Hev. apply Hall. by right.
Qed.

Section FrameFacts.

Context {btn : Joypad.CONTROLLER_BTN}.

Lemma commands_events_on_device h prev cs ev :
  In ev (commands_events h prev cs) -> w_dev ev = h.
Proof.
  revert ev. apply List.Forall_forall, commands_events_Forall.
  intros prev' c ev Hev. by apply command_events_codes in Hev as [? _].
Qed.

Lemma command_events_closed h prev c :
  command_events h prev c = []
  \/ exists pre, command_events h prev c = pre ++ [syn_report h].
Proof.
  destruct c as [m|s x y|left right|cb]; cbn [command_events].
  - right. by exists (edge_events h prev m).
  - right. unfold stick_events. eauto.
  - right. by exists [mk_write h EV_ABS ABS_Z left; mk_write h EV_ABS ABS_RZ right].
  - by left.
Qed.

Lemma commands_events_closed h cs :
  forall prev,
    commands_events h prev cs = []
    \/ exists pre, commands_events h prev cs = pre ++ [syn_report h].
Proof.
  induction cs as [|c cs IH]; intros prev; [by left|].
  cbn [commands_events].
  destruct (IH (next_mask prev c)) as [-> | (pre & ->)].
  - rewrite app_nil_r. apply command_events_closed.
  - right. exists (command_events h prev c ++ pre). by rewrite app_assoc.
Qed.

Lemma frames_closed_app d h evs prev cs :
  frames_closed d evs = true ->
  frames_closed d (evs ++ commands_events h prev cs) = true.
Proof.
  intros Hclosed. unfold frames_closed in *. rewrite on_device_app.
  destruct (decide (d = h)) as [->|Hne].
  - rewrite (on_device_all h (commands_events h prev cs))
      by apply commands_events_on_device.
    destruct (commands_events_closed h cs prev) as [-> | (pre & ->)].
    + by rewrite app_nil_r.
    + rewrite app_assoc, rev_app_distr. cbn [rev app].
      by apply bool_decide_eq_true_2.
  - rewrite (on_device_none d (commands_events h prev cs)), app_nil_r; [done|].
    intros ev Hev. by rewrite (commands_events_on_device h prev cs ev Hev).
Qed.

End FrameFacts.

(** X11. No command leaves a frame open: if the last write on a device
    is a SYN_REPORT (or the device was never written) before a sequence of
    commands on any session, with a handle or without, it is so after
    it. *)
Theorem commands_leave_frames_closed `{btn : Joypad.CONTROLLER_BTN}
    (l : loc) (st : PS5JoypadState) (w : World) (cs : list command)
    (d : libevdev_uinput) :
  heap w !! l = Some st ->
  frames_closed d (written w) = true ->
  exists w',
    run_commands (session l) cs w = Some (tt, w')
    /\ frames_closed d (written w') = true.
Proof.
  intros Hst Hclosed. eexists.
  split; [exact (run_commands_run l cs st w Hst)|].
  cbn [written]. destruct (joy st) as [h|].
  - by apply frames_closed_app.
  - by rewrite app_nil_r.
Qed.

Lemma commands_leave_frames_closed_witness :
  heap (sample_world (sample_state 7%nat)) !! 1%positive
  = Some (sample_state 7%nat)
  /\ frames_closed 7%nat (written (sample_world (sample_state 7%nat))) = true
  /\ exists w',
      @run_commands moonlight_btn (session 1%positive)
        [SetStick Joypad.LS 1 2; SetOnRumble 3%nat]
        (sample_world (sample_state 7%nat)) = Some (tt, w')
      /\ frames_closed 7%nat (written w') = true.
Proof.
  split; [reflexivity|]. split; [reflexivity|].
  exact (@commands_leave_frames_closed moonlight_btn 1%positive
           (sample_state 7%nat) (sample_world (sample_state 7%nat))
           [SetStick Joypad.LS 1 2; SetOnRumble 3%nat] 7%nat eq_refl eq_refl).
Defined.

(** ** Sessions side by side *)

(** X12. Two sessions on different states and different handles do not
    disturb each other: after a sequence of commands on the one and a
    sequence on the other, each state is what its own commands make of it
    and the writes on each device are those of its own commands; running
    the two sequences in the other order gives the same states and the same
    writes on each device. *)
Theorem sessions_do_not_interfere `{btn : Joypad.CONTROLLER_BTN}
    (l1 l2 : loc) (st1 st2 : PS5JoypadState) (h1 h2 : libevdev_uinput)
    (w : World) (cs1 cs2 : list command) :
  heap w !! l1 = Some st1 ->
  heap w !! l2 = Some st2 ->
  l1 <> l2 ->
  joy st1 = Some h1 ->
  joy st2 = Some h2 ->
  h1 <> h2 ->
  exists w' w'',
    (run_commands (session l1) cs1;; run_commands (session l2) cs2) w
    = Some (tt, w')
    /\ (run_commands (session l2) cs2;; run_commands (session l1) cs1) w
       = Some (tt, w'')
    /\ heap w' !! l1 = Some (commands_state cs1 st1)
    /\ heap w' !! l2 = Some (commands_state cs2 st2)
    /\ on_device h1 (written w')
       = on_device h1 (written w)
         ++ commands_events h1 (currently_pressed_btns st1) cs1
    /\ on_device h2 (written w')
       = on_device h2 (written w)
         ++ commands_events h2 (currently_pressed_btns st2) cs2
    /\ heap w'' = heap w'
    /\ threads w'' = threads w'
    /\ on_device h1 (written w'') = on_device h1 (written w')
    /\ on_device h2 (written w'') = on_device h2 (written w').
Proof.
  intros Hst1 Hst2 Hl Hjoy1 Hjoy2 Hh.
  assert (on_device h1 (commands_events h2 (currently_pressed_btns st2) cs2) = [])
    as H12.
  { apply on_device_none. intros ev Hev.
    by rewrite (commands_events_on_device h2 _ cs2 ev Hev). }
  assert (on_device h2 (commands_events h1 (currently_pressed_btns st1) cs1) = [])
    as H21.
  { apply on_device_none. intros ev Hev.
    by rewrite (commands_events_on_device h1 _ cs1 ev Hev). }
  pose proof (on_device_all h1 _ (commands_events_on_device h1
                (currently_pressed_btns st1) cs1)) as H11.
  pose proof (on_device_all h2 _ (commands_events_on_device h2
                (currently_pressed_btns st2) cs2)) as H22.
  eexists _, _. split; [|split].
  - rewrite bind_run, (run_commands_run l1 cs1 st1 w Hst1).
    apply (run_commands_run l2 cs2 st2).
    cbn [heap]. by rewrite lookup_insert_ne.
  - rewrite bind_run, (run_commands_run l2 cs2 st2 w Hst2).
    apply (run_commands_run l1 cs1 st1).
    cbn [heap]. by rewrite lookup_insert_ne.
  - cbn [heap threads written]. rewrite Hjoy1, Hjoy2.
    rewrite !on_device_app, H11, H12, H21, H22, !app_nil_r.
    split; [by rewrite lookup_insert_ne, lookup_insert_eq|].
    split; [apply lookup_insert_eq|].
    split; [done|]. split; [done|].
    split; [by apply insert_insert_ne|]. done.
Qed.

Lemma sessions_do_not_interfere_witness :
  let w := mkWorld (<[2%positive := sample_state 8%nat]>
                      {[ 1%positive := sample_state 7%nat ]}) [] [] in
  heap w !! 1%positive = Some (sample_state 7%nat)
  /\ heap w !! 2%positive = Some (sample_state 8%nat)
  /\ 1%positive <> 2%positive
  /\ joy (sample_state 7%nat) = Some 7%nat
  /\ joy (sample_state 8%nat) = Some 8%nat
  /\ 7%nat <> 8%nat
  /\ exists w' w'',
      (@run_commands moonlight_btn (session 1%positive) [SetPressedButtons 1];;
       @run_commands moonlight_btn (session 2%positive) [SetTriggers 1 2]) w
      = Some (tt, w')
      /\ (@run_commands moonlight_btn (session 2%positive) [SetTriggers 1 2];;
          @run_commands moonlight_btn (session 1%positive) [SetPressedButtons 1]) w
         = Some (tt, w'').
Proof.
  intros w.
  assert (1%positive <> 2%positive) as Hl by discriminate.
  assert (7%nat <> 8%nat) as Hh by discriminate.
  split; [reflexivity|]. split; [reflexivity|]. split; [exact Hl|].
  split; [reflexivity|]. split; [reflexivity|]. split; [exact Hh|].
  destruct (@sessions_do_not_interfere moonlight_btn 1%positive 2%positive
              (sample_state 7%nat) (sample_state 8%nat) 7%nat 8%nat w
              [SetPressedButtons 1] [SetTriggers 1 2]
              eq_refl eq_refl Hl eq_refl eq_refl Hh)
    as (w' & w'' & H1 & H2 & _).
  exists w', w''. exact (conj H1 H2).
Defined.

(** X13. Two sessions created one after the other never share their
    state: the second [create] allocates a state object of its own, leaves
    the first session's state as it is, and each of the two listener
    threads is handed the state of its own session. *)
Theorem created_sessions_have_own_state
    (uinput_create : libevdev -> World -> Z * libevdev_uinput)
    (strerror : Z -> string) (default_mac_address : list Z)
    (device1 device2 : DeviceDefinition) (w w1 w2 : World)
    (joypad1 joypad2 : PS5Joypad) :
  create uinput_create strerror default_mac_address device1 w
  = Some (Ok joypad1, w1) ->
  create uinput_create strerror default_mac_address device2 w1
  = Some (Ok joypad2, w2) ->
  exists l1 l2,
    joypad1 = session l1 /\ joypad2 = session l2
    /\ l1 <> l2
    /\ heap w2 !! l1 = heap w1 !! l1
    /\ threads w2
       = threads w ++ [ mk_thread event_listener (Some l1) true false;
                        mk_thread event_listener (Some l2) true false ].
Proof.
  intros Hc1 Hc2.
  destruct (decide (fst (uinput_create (ps_controller_dev device1) w) = 0))
    as [Hr1|Hr1];
    [|by rewrite (create_refused _ strerror default_mac_address _ _ Hr1) in Hc1].
  destruct (decide (fst (uinput_create (ps_controller_dev device2) w1) = 0))
    as [Hr2|Hr2];
    [|by rewrite (create_refused _ strerror default_mac_address _ _ Hr2) in Hc2].
  rewrite (create_accepted _ strerror default_mac_address _ _ Hr1) in Hc1.
  rewrite (create_accepted _ strerror default_mac_address _ _ Hr2) in Hc2.
  cbv zeta in Hc1, Hc2.
  injection Hc1 as <- <-. injection Hc2 as <- <-.
  eexists _, _. split; [reflexivity|]. split; [reflexivity|].
  cbn [heap threads].
  assert (fresh (dom (<[fresh (dom (heap w)) :=
                          set_joy (Some (snd (uinput_create
                                   (ps_controller_dev device1) w)))
                            default_state]> (heap w)))
          <> fresh (dom (heap w))) as Hne.
  { intros Heq.
    apply (is_fresh (dom (<[fresh (dom (heap w)) :=
                          set_joy (Some (snd (uinput_create
                                   (ps_controller_dev device1) w)))
                            default_state]> (heap w)))).
    rewrite Heq. apply elem_of_dom. rewrite lookup_insert_eq. by eexists. }
  split; [by intros Heq; apply Hne|].
  split; [by apply lookup_insert_ne|].
  by rewrite <- app_assoc.
Qed.

Lemma created_sessions_have_own_state_witness :
  let w1 := mkWorld {[ 1%positive := sample_state 7%nat ]}
              [mk_thread event_listener (Some 1%positive) true false] [] in
  let w2 := mkWorld (<[2%positive := sample_state 7%nat]>
                       {[ 1%positive := sample_state 7%nat ]})
              [ mk_thread event_listener (Some 1%positive) true false;
                mk_thread event_listener (Some 2%positive) true false ] [] in
  create (kernel_accepts 7%nat) sample_strerror [] sample_device
    (mkWorld ∅ [] []) = Some (Ok (session 1%positive), w1)
  /\ create (kernel_accepts 7%nat) sample_strerror [] sample_device w1
     = Some (Ok (session 2%positive), w2)
  /\ exists l1 l2,
      session 1%positive = session l1 /\ session 2%positive = session l2
      /\ l1 <> l2.
Proof.
  intros w1 w2.
  assert (create (kernel_accepts 7%nat) sample_strerror [] sample_device
            (mkWorld ∅ [] []) = Some (Ok (session 1%positive), w1)) as H1
    by (vm_compute; reflexivity).
  assert (create (kernel_accepts 7%nat) sample_strerror [] sample_device w1
          = Some (Ok (session 2%positive), w2)) as H2
    by (vm_compute; reflexivity).
  split; [exact H1|]. split; [exact H2|].
  destruct (created_sessions_have_own_state (kernel_accepts 7%nat)
              sample_strerror [] sample_device sample_device
              (mkWorld ∅ [] []) w1 w2 (session 1%positive) (session 2%positive)
              H1 H2)
    as (l1 & l2 & Hj1 & Hj2 & Hne & _).
  exists l1, l2. exact (conj Hj1 (conj Hj2 Hne)).
Defined.

(** ** The destructor *)




(** ** The rumble callback and the device nodes *)

(** X15. Registering a rumble callback replaces the one before: two
    registrations in a row leave the world exactly as the second alone
    does, with the second callback stored, whether or not the session has
    a device handle; no event is written, mask and handle stay. *)
Theorem set_on_rumble_last_wins
    (l : loc) (st : PS5JoypadState) (w : World) (cb1 cb2 : rumble_callback) :
  heap w !! l = Some st ->
  exists w' st',
    (set_on_rumble (session l) cb1;; set_on_rumble (session l) cb2) w
    = Some (tt, w')
    /\ set_on_rumble (session l) cb2 w = Some (tt, w')
    /\ heap w' !! l = Some st'
    /\ on_rumble st' = Some cb2
    /\ joy st' = joy st
    /\ currently_pressed_btns st' = currently_pressed_btns st
    /\ written w' = written w.
Proof.
  intros Hst. eexists _, _. split; [|split].
  - rewrite bind_run, (set_on_rumble_run l st w Hst cb1).
    rewrite (set_on_rumble_run l (set_on_rumble_field (Some cb1) st))
      by apply lookup_insert_eq.
    unfold set_heap; cbn [heap threads written].
    rewrite insert_insert_eq. reflexivity.
  - exact (set_on_rumble_run l st w Hst cb2).
  - split; [apply lookup_insert_eq|]. done.
Qed.

Lemma set_on_rumble_last_wins_witness :
  heap (sample_world default_state) !! 1%positive = Some default_state
  /\ exists w' st',
      (set_on_rumble (session 1%positive) 4%nat;;
       set_on_rumble (session 1%positive) 5%nat) (sample_world default_state)
      = Some (tt, w')
      /\ heap w' !! 1%positive = Some st'
      /\ on_rumble st' = Some 5%nat.
Proof.
  split; [reflexivity|].
  destruct (set_on_rumble_last_wins 1%positive default_state
              (sample_world default_state) 4%nat 5%nat eq_refl)
    as (w' & st' & Hrun & _ & Hst & Hcb & _).
  exists w', st'. exact (conj Hrun (conj Hst Hcb)).
Defined.

(** X16. [get_nodes] only reads: it returns the child nodes of the
    session's handle, the empty list when there is none, and leaves the
    world as it is; no sequence of commands changes what it returns. *)
Theorem get_nodes_stable `{btn : Joypad.CONTROLLER_BTN}
    (get_child_dev_nodes : libevdev_uinput -> list string)
    (l : loc) (st : PS5JoypadState) (w : World) (cs : list command) :
  heap w !! l = Some st ->
  let nodes := match joy st with
               | Some h => get_child_dev_nodes h
               | None => []
               end in
  get_nodes get_child_dev_nodes (session l) w = Some (nodes, w)
  /\ exists w',
      run_commands (session l) cs w = Some (tt, w')
      /\ get_nodes get_child_dev_nodes (session l) w' = Some (nodes, w').
Proof.
  intros Hst nodes.
  assert (forall st0 (w0 : World),
            heap w0 !! l = Some st0 -> joy st0 = joy st ->
            get_nodes get_child_dev_nodes (session l) w0 = Some (nodes, w0))
    as Hget.
  { intros st0 w0 Hst0 Hjoy0. unfold get_nodes, session. cbn [_state].
    rewrite bind_run, (deref_run l st0 w0 Hst0), Hjoy0.
    subst nodes. by destruct (joy st). }
  split; [by apply (Hget st)|].
  eexists. split; [exact (run_commands_run l cs st w Hst)|].
  apply (Hget (commands_state cs st)); [apply lookup_insert_eq|].
  by destruct (commands_state_same_device cs st) as (? & _).
Qed.

Lemma get_nodes_stable_witness :
  heap (sample_world (sample_state 7%nat)) !! 1%positive
  = Some (sample_state 7%nat)
  /\ get_nodes (fun _ => ["/dev/input/event9"; "/dev/input/js0"]%string)
       (session 1%positive) (sample_world (sample_state 7%nat))
     = Some (["/dev/input/event9"; "/dev/input/js0"]%string,
             sample_world (sample_state 7%nat)).
Proof.
  split; [reflexivity|].
  exact (proj1 (@get_nodes_stable moonlight_btn
                  (fun _ => ["/dev/input/event9"; "/dev/input/js0"]%string)
                  1%positive (sample_state 7%nat)
                  (sample_world (sample_state 7%nat)) [] eq_refl)).
Defined.

(** ** The operations the backend does not support *)

(** X17. The six operations that the uinput backend does not support
    (touch contacts, motion, battery, LED and trigger-effect callbacks) are
    silent: a sequence of calls runs exactly as the sequence of its
    supported commands does, on every session and in every world, a
    faulting one included. *)
Theorem unsupported_calls_are_silent `{btn : Joypad.CONTROLLER_BTN}
    (float MOTION_TYPE BATTERY_STATE led_callback trigger_effect_callback : Type)
    (this : PS5Joypad)
    (cs : list (call float MOTION_TYPE BATTERY_STATE led_callback
                  trigger_effect_callback))
    (w : World) :
  run_calls float MOTION_TYPE BATTERY_STATE led_callback trigger_effect_callback
    this cs w
  = run_commands this
      (flat_map (supported float MOTION_TYPE BATTERY_STATE led_callback
                   trigger_effect_callback) cs) w.
Proof.
  revert w. induction cs as [|c cs IH]; intros w; [done|].
  cbn [run_calls flat_map]. rewrite bind_run.
  destruct c; cbn [run_call supported app run_commands];
    try (unfold place_finger, release_finger, set_motion, set_battery,
           set_on_led, set_on_trigger_effect; rewrite ret_run; apply IH).
  rewrite bind_run. destruct (run_command this c w) as [[[] w1]|]; [apply IH|done].
Qed.

(** ** What commands never do *)

(** X18. On a session with a state, with a handle or without, no
    sequence of commands faults, and none changes the device handle, the
    stop flag or the thread object of the state, the list of threads, or
    the state of any other session: only the stored mask, the callback and
    the trace move. *)
Theorem commands_keep_handle_and_threads `{btn : Joypad.CONTROLLER_BTN}
    (l : loc) (st : PS5JoypadState) (w : World) (cs : list command) :
  heap w !! l = Some st ->
  exists w' st',
    run_commands (session l) cs w = Some (tt, w')
    /\ heap w' !! l = Some st'
    /\ joy st' = joy st
    /\ stop_listening_events st' = stop_listening_events st
    /\ events_thread st' = events_thread st
    /\ threads w' = threads w
    /\ (forall l', l' <> l -> heap w' !! l' = heap w !! l')
    /\ (joy st = None -> written w' = written w).
Proof.
  intros Hst. eexists _, (commands_state cs st).
  split; [exact (run_commands_run l cs st w Hst)|].
  destruct (commands_state_same_device cs st) as (Hj & He & Hs).
  cbn [heap threads written].
  split; [apply lookup_insert_eq|].
  do 4 (split; [done|]).
  split; [intros l' Hne; by apply lookup_insert_ne|].
  intros ->. by rewrite app_nil_r.
Qed.

Lemma commands_keep_handle_and_threads_witness :
  heap (sample_world default_state) !! 1%positive = Some default_state
  /\ exists w' st',
      @run_commands moonlight_btn (session 1%positive)
        [SetPressedButtons 0x1001; SetTriggers 1 2; SetOnRumble 3%nat]
        (sample_world default_state) = Some (tt, w')
      /\ heap w' !! 1%positive = Some st'
      /\ joy st' = joy default_state.
Proof.
  split; [reflexivity|].
  destruct (@commands_keep_handle_and_threads moonlight_btn 1%positive
              default_state (sample_world default_state)
              [SetPressedButtons 0x1001; SetTriggers 1 2; SetOnRumble 3%nat]
              eq_refl)
    as (w' & st' & Hrun & Hst & Hjoy & _).
  exists w', st'. exact (conj Hrun (conj Hst Hjoy)).
Defined.

Lemma flat_map_length_le {E T} (f : E -> list T) (tbl : list E) :
  (forall e, (length (f e) <= 1)%nat) ->
  (length (flat_map f tbl) <= length tbl)%nat.
Proof.
  intros Hf. induction tbl as [|e tbl IH]; [done|].
  cbn [flat_map]. rewrite length_app. cbn [length]. specialize (Hf e). lia.
Qed.

(** X19. One call of [set_pressed_buttons] on a live handle writes at
    least one event, the report, and at most fourteen: one for each of the
    two directional axes and the eleven buttons, and the report. *)
Theorem set_pressed_buttons_writes_at_most_14 `{btn : Joypad.CONTROLLER_BTN}
    (l : loc) (st : PS5JoypadState) (h : libevdev_uinput) (w : World)
    (new : Z) :
  heap w !! l = Some st ->
  joy st = Some h ->
  exists w' evs,
    set_pressed_buttons (session l) new w = Some (tt, w')
    /\ written w' = written w ++ evs
    /\ (1 <= length evs <= 14)%nat.
Proof.
  intros Hst Hjoy. eexists _, _.
  split; [exact (set_pressed_buttons_live l st w Hst h new Hjoy)|].
  split; [reflexivity|].
  unfold frame, edge_events. rewrite !length_app. cbn [length].
  pose proof (flat_map_length_le (hat_edge h (currently_pressed_btns st) new)
                hat_table) as Hhat.
  pose proof (flat_map_length_le (key_edge h (currently_pressed_btns st) new)
                key_table) as Hkey.
  cbn [length hat_table key_table] in Hhat, Hkey.
  assert (forall e, (length (hat_edge h (currently_pressed_btns st) new e) <= 1)%nat)
    as H1 by (intros e; unfold hat_edge; destruct (changed _ _ _); cbn; lia).
  assert (forall e, (length (key_edge h (currently_pressed_btns st) new e) <= 1)%nat)
    as H2 by (intros e; unfold key_edge; destruct (changed _ _ _); cbn; lia).
  specialize (Hhat H1). specialize (Hkey H2). lia.
Qed.

Lemma set_pressed_buttons_writes_at_most_14_witness :
  heap (sample_world (sample_state 7%nat)) !! 1%positive
  = Some (sample_state 7%nat)
  /\ joy (sample_state 7%nat) = Some 7%nat
  /\ exists w' evs,
      @set_pressed_buttons moonlight_btn (session 1%positive) 0xF7FF
        (sample_world (sample_state 7%nat)) = Some (tt, w')
      /\ written w' = [] ++ evs
      /\ (1 <= length evs <= 14)%nat.
Proof.
  split; [reflexivity|]. split; [reflexivity|].
  exact (@set_pressed_buttons_writes_at_most_14 moonlight_btn 1%positive
           (sample_state 7%nat) 7%nat (sample_world (sample_state 7%nat))
           0xF7FF eq_refl eq_refl).
Defined.

(** All fourteen are written when every flag changes at once. *)
Example all_flags_pressed :
  length (@frame moonlight_btn 7%nat 0 0xF7FF) = 14%nat.
Proof. reflexivity. Qed.
